(** * Structured-content extraction of the contract analysis server

    A shallow embedding of [flattenPolygon] and [extractStructuredContent]
    (with its inner [findLinePolygon]) from [server.js], and of the two
    request handlers around them, followed by the properties of the
    extraction pipeline.

    Conventions of the embedding:
    - a JS string is a [string]; every character stands for one code unit
      below 256, so [String.length] is the JS [length];
    - page numbers and array indices are [nat], printed in decimal as JS
      prints the integers it represents exactly;
    - polygon coordinates are JS numbers kept abstract: a type [number]
      with its conversion to a string, the only operation the code applies;
    - the raw result is typed as the analysis client delivers it: contents
      are strings, lines, regions and polygon entries are never null, and a
      polygon array holds numbers or points throughout; what the code
      tolerates beyond that is part of the types: absent pages, lines,
      paragraphs, role, bounding regions or polygon, and a polygon that is
      no array or of no recognised shape;
    - the extraction is embedded a second time on unchecked values (absent
      contents, null regions, polygon arrays of any values), where it can
      throw; [rawExtractStructuredContent_of] shows that it returns, on a
      checked result, what the checked extraction returns;
    - an optional property is an [option]; calling a method or reading a
      property of an absent value throws, which the completion monad [js]
      makes explicit;
    - the local variables [items], [fullText] and [linePolygonMap] that the
      callbacks of the source mutate are the state of that monad. *)

From Stdlib Require Import String Ascii List Arith Bool Lia.
From Stdlib Require Import Decimal DecimalNat DecimalString.
Import ListNotations.
Local Open Scope list_scope.
Local Open Scope string_scope.

Set Implicit Arguments.

(** ** JS string primitives used by the server *)

Module JsString.

(** White space as [String.prototype.trim] and the regex class [\s] see
    it, among code units below 256: TAB, LF, VT, FF, CR, SP, NBSP. *)
Definition isWhiteSpace (c : ascii) : bool :=
  let n := nat_of_ascii c in
  (((9 <=? n) && (n <=? 13)) || (n =? 32) || (n =? 160))%nat.

Fixpoint trimStart (s : string) : string :=
  match s with
  | String c s' => if isWhiteSpace c then trimStart s' else s
  | EmptyString => EmptyString
  end.

Fixpoint trimEnd (s : string) : string :=
  match s with
  | EmptyString => EmptyString
  | String c s' =>
      match trimEnd s' with
      | EmptyString => if isWhiteSpace c then EmptyString else String c EmptyString
      | t => String c t
      end
  end.

(** [s.trim()] *)
Definition trim (s : string) : string := trimEnd (trimStart s).

(** [s.split(sep)] for a one-character separator: never empty. *)
Fixpoint split (sep : ascii) (s : string) : list string :=
  match s with
  | EmptyString => [EmptyString]
  | String c s' =>
      if Ascii.eqb c sep then EmptyString :: split sep s'
      else match split sep s' with
           | seg :: segs => String c seg :: segs
           | [] => [String c EmptyString]
           end
  end.

(** [s.startsWith(p)] *)
Fixpoint startsWith (s p : string) : bool :=
  match p, s with
  | EmptyString, _ => true
  | String a p', String b s' => Ascii.eqb a b && startsWith s' p'
  | String _ _, EmptyString => false
  end.

(** [l.join(sep)] on an array of strings *)
Definition join (sep : string) (l : list string) : string := String.concat sep l.

(** [`${n}`] for a non-negative integer *)
Definition natToString (n : nat) : string :=
  NilEmpty.string_of_uint (Nat.to_uint n).

Definition LF : ascii := ascii_of_nat 10.
Definition newline : string := String LF EmptyString.

End JsString.

(** ** The regular expressions of the heading heuristic

    The server only asks whether [content.match(re)] is truthy, so a regex
    is modelled by its language and decided with derivatives. *)

Module Regex.

Inductive regex : Type :=
| Void                              (* matches nothing *)
| Eps                               (* matches the empty string *)
| Class (p : ascii -> bool)         (* one character of a class *)
| Seq (r1 r2 : regex)
| Alt (r1 r2 : regex)
| Star (r : regex).

Fixpoint nullable (r : regex) : bool :=
  match r with
  | Void => false
  | Eps => true
  | Class _ => false
  | Seq r1 r2 => nullable r1 && nullable r2
  | Alt r1 r2 => nullable r1 || nullable r2
  | Star _ => true
  end.

Fixpoint deriv (c : ascii) (r : regex) : regex :=
  match r with
  | Void => Void
  | Eps => Void
  | Class p => if p c then Eps else Void
  | Seq r1 r2 =>
      if nullable r1 then Alt (Seq (deriv c r1) r2) (deriv c r2)
      else Seq (deriv c r1) r2
  | Alt r1 r2 => Alt (deriv c r1) (deriv c r2)
  | Star r1 => Seq (deriv c r1) (Star r1)
  end.

(** [r+] *)
Definition Plus (r : regex) : regex := Seq r (Star r).

(** [/^r/]: some prefix of the subject is in the language of [r]. *)
Fixpoint testPrefix (r : regex) (s : string) : bool :=
  nullable r ||
  match s with
  | EmptyString => false
  | String c s' => testPrefix (deriv c r) s'
  end.

(** [/^r$/] (no [m] flag): the whole subject is in the language of [r]. *)
Fixpoint testWhole (r : regex) (s : string) : bool :=
  match s with
  | EmptyString => nullable r
  | String c s' => testWhole (deriv c r) s'
  end.

Definition code (c : ascii) : nat := nat_of_ascii c.

(** [[A-Z]] *)
Definition upper (c : ascii) : bool := ((65 <=? code c) && (code c <=? 90))%nat.
(** [\d] *)
Definition digit (c : ascii) : bool := ((48 <=? code c) && (code c <=? 57))%nat.
(** [\s] *)
Definition space (c : ascii) : bool := JsString.isWhiteSpace c.
(** a literal character *)
Definition char (a : ascii) (c : ascii) : bool := Ascii.eqb a c.

(** Canonical form of a code unit under the [i] flag: ASCII letters fold
    to upper case, nothing else folds onto an ASCII letter. *)
Definition fold (c : ascii) : ascii :=
  if ((97 <=? code c) && (code c <=? 122))%nat then ascii_of_nat (code c - 32) else c.

(** one pattern character under the [i] flag *)
Definition char_i (a : ascii) (c : ascii) : bool := Ascii.eqb (fold a) (fold c).

(** a literal word under the [i] flag *)
Fixpoint word_i (w : string) : regex :=
  match w with
  | EmptyString => Eps
  | String a w' => Seq (Class (char_i a)) (word_i w')
  end.

Definition either (p q : ascii -> bool) (c : ascii) : bool := p c || q c.
Definition none_of (p : ascii -> bool) (c : ascii) : bool := negb (p c).

End Regex.

(** ** Completions: a callback either returns or throws *)

Inductive error : Type := TypeError.

Inductive completion (A : Type) : Type :=
| Normal (a : A)
| Throw (e : error).
Arguments Throw {A} e.

(** ** The analysis result handed to [extractStructuredContent] *)

Section Server.

(** JS numbers used as coordinates, and [`${n}`] on them. *)
Context {number : Type}.
Variable numberToString : number -> string.

Record Point2D : Type := { x : number; y : number }.

(** The value of a [polygon] property. *)
Inductive Polygon : Type :=
| Missing                          (* undefined or null *)
| NotArray                         (* any value that is no array *)
| Numbers (ns : list number)       (* an array of numbers *)
| Points (pts : list Point2D)      (* an array of [{x, y}] objects *)
| OtherArray.                      (* an array whose entries are neither *)

Record Line : Type := {
  line_content : string;
  line_polygon : Polygon
}.

Record Page : Type := {
  page_pageNumber : nat;
  page_lines : option (list Line)
}.

Record BoundingRegion : Type := {
  region_pageNumber : nat;
  region_polygon : Polygon
}.

Record Paragraph : Type := {
  par_content : string;
  par_role : option string;
  par_boundingRegions : option (list BoundingRegion)
}.

Record AnalyzeResult : Type := {
  pages : option (list Page);
  paragraphs : option (list Paragraph)
}.

(** ** What the extraction produces *)

Inductive ItemType : Type := heading | paragraph.

Record ContentItem : Type := {
  id : string;
  type : ItemType;
  content : string;
  page : nat;
  boundingBox : list number;
  source : option string          (* [None] is JS [null] *)
}.

Record StructuredContent : Type := {
  sc_items : list ContentItem;
  sc_fullText : string;
  sc_pageCount : nat
}.

(** ** The insertion-ordered [Map] behind [linePolygonMap] *)

Record LinePolygon : Type := { lp_page : nat; lp_polygon : list number }.

Definition Map : Type := list (string * LinePolygon).

Fixpoint map_get (key : string) (m : Map) : option LinePolygon :=
  match m with
  | [] => None
  | (k, v) :: m' => if String.eqb k key then Some v else map_get key m'
  end.

Definition map_has (key : string) (m : Map) : bool :=
  match map_get key m with Some _ => true | None => false end.

(** [m.set(key, v)]: a present key keeps its place, a new one goes last. *)
Fixpoint map_set (key : string) (v : LinePolygon) (m : Map) : Map :=
  match m with
  | [] => [(key, v)]
  | (k, w) :: m' =>
      if String.eqb k key then (k, v) :: m' else (k, w) :: map_set key v m'
  end.

(** ** Local variables of one call, and the monad of its callbacks *)

Record Locals : Type := {
  items : list ContentItem;
  fullText : string;
  linePolygonMap : Map
}.

Definition js (A : Type) : Type := Locals -> completion (A * Locals).

Definition ret {A} (a : A) : js A := fun s => Normal (a, s).

Definition bind {A B} (m : js A) (k : A -> js B) : js B :=
  fun s => match m s with
           | Normal (a, s') => k a s'
           | Throw e => Throw e
           end.

Definition throw {A} (e : error) : js A := fun _ => Throw e.

Definition get : js Locals := fun s => Normal (s, s).
Definition put (s : Locals) : js unit := fun _ => Normal (tt, s).

Notation "v <- m ;; k" := (bind m (fun v => k))
  (at level 61, m at next level, right associativity).
Notation "m ;; k" := (bind m (fun _ => k))
  (at level 61, right associativity).

(** [o.p], [o.f(...)] or [o[i]] on a value that may be absent *)
Definition member {A} (o : option A) : js A :=
  match o with
  | Some a => ret a
  | None => throw TypeError
  end.

(** Truthiness of an optional object or array *)
Definition truthy {A} (o : option A) : bool :=
  match o with Some _ => true | None => false end.

(** [arr.forEach((a, index) => body)] *)
Fixpoint forEachFrom {A} (index : nat) (arr : list A) (body : A -> nat -> js unit)
  : js unit :=
  match arr with
  | [] => ret tt
  | a :: arr' => body a index ;; forEachFrom (S index) arr' body
  end.

Definition forEach {A} (arr : list A) (body : A -> nat -> js unit) : js unit :=
  forEachFrom 0 arr body.

(** ** [flattenPolygon] (server.js, lines 152-161) *)

Definition flattenPolygon (polygon : Polygon) : option (list number) :=
  match polygon with
  | Missing | NotArray => None                 (* !polygon || !Array.isArray *)
  | Numbers (n :: ns) => Some (n :: ns)        (* typeof polygon[0] === 'number' *)
  | Points (pt :: pts) =>                      (* typeof polygon[0].x === 'number' *)
      Some (flat_map (fun pt => [x pt; y pt]) (pt :: pts))
  | Numbers [] | Points [] | OtherArray => None
  end.

(** [`${p[i]}`] *)
Definition coordinate (p : list number) (i : nat) : string :=
  match nth_error p i with
  | Some n => numberToString n
  | None => "undefined"
  end.

(** [`D(${pageNumber},${p[0]},...,${p[7]})`] *)
Definition sourceString (pageNumber : nat) (p : list number) : string :=
  "D(" ++ JsString.natToString pageNumber
    ++ "," ++ coordinate p 0 ++ "," ++ coordinate p 1
    ++ "," ++ coordinate p 2 ++ "," ++ coordinate p 3
    ++ "," ++ coordinate p 4 ++ "," ++ coordinate p 5
    ++ "," ++ coordinate p 6 ++ "," ++ coordinate p 7 ++ ")".

(** ** The heading heuristic (lines 224-232, repeated at 273-281) *)

Import Regex.

(** [/^[A-Z][A-Z\s]+$/] *)
Definition re_allCaps : regex :=
  Seq (Class upper) (Plus (Class (either upper space))).
(** [/^\d+\./] *)
Definition re_numbered : regex :=
  Seq (Plus (Class digit)) (Class (char ".")).
(** [[IVX\d]] under the [i] flag *)
Definition romanOrDigit : ascii -> bool :=
  either (char_i "I") (either (char_i "V") (either (char_i "X") digit)).
(** [[\d\.]] *)
Definition digitOrDot : ascii -> bool := either digit (char ".").
(** [/^Article\s+[IVX\d]+/i] *)
Definition re_Article : regex :=
  Seq (word_i "Article") (Seq (Plus (Class space)) (Plus (Class romanOrDigit))).
(** [/^Section\s+[\d\.]+/i] *)
Definition re_Section : regex :=
  Seq (word_i "Section") (Seq (Plus (Class space)) (Plus (Class digitOrDot))).
(** [/^ARTICLE\s+[IVX\d]+/i] *)
Definition re_ARTICLE : regex :=
  Seq (word_i "ARTICLE") (Seq (Plus (Class space)) (Plus (Class romanOrDigit))).
(** [/^SECTION\s+[\d\.]+/i] *)
Definition re_SECTION : regex :=
  Seq (word_i "SECTION") (Seq (Plus (Class space)) (Plus (Class digitOrDot))).
(** [/^[A-Z][^.!?]*:$/] *)
Definition re_titleColon : regex :=
  Seq (Class upper)
      (Seq (Star (Class (none_of (either (char ".") (either (char "!") (char "?"))))))
           (Class (char ":"))).
(** [/^Clause\s+[\d\.]+/i] *)
Definition re_Clause : regex :=
  Seq (word_i "Clause") (Seq (Plus (Class space)) (Plus (Class digitOrDot))).

(** [content.length < 150 && (content.match(...) || ...)] *)
Definition headingShape (content : string) : bool :=
  (String.length content <? 150)%nat &&
  (testWhole re_allCaps content
   || testPrefix re_numbered content
   || testPrefix re_Article content
   || testPrefix re_Section content
   || testPrefix re_ARTICLE content
   || testPrefix re_SECTION content
   || testWhole re_titleColon content
   || testPrefix re_Clause content).

(** ** [extractStructuredContent] (lines 164-309) *)

Definition setFullText (t : string) : js unit :=
  s <- get ;;
  put {| items := items s; fullText := t; linePolygonMap := linePolygonMap s |}.

(** [items.push(item)] *)
Definition pushItem (item : ContentItem) : js unit :=
  s <- get ;;
  put {| items := items s ++ [item]; fullText := fullText s;
         linePolygonMap := linePolygonMap s |}.

(** [linePolygonMap.set(key, v)] *)
Definition setLinePolygon (key : string) (v : LinePolygon) : js unit :=
  s <- get ;;
  put {| items := items s; fullText := fullText s;
         linePolygonMap := map_set key v (linePolygonMap s) |}.

(** [`${pageNumber}:${text}`] *)
Definition mapKey (pageNumber : nat) (text : string) : string :=
  JsString.natToString pageNumber ++ ":" ++ text.

(** The callback of [page.lines.forEach] at lines 173-182. *)
Definition indexLine (pg : Page) (line : Line) (_ : nat) : js unit :=
  let key := mapKey (page_pageNumber pg) (JsString.trim (line_content line)) in
  let flatPoly := flattenPolygon (line_polygon line) in
  s <- get ;;
  match flatPoly with
  | Some p =>
      if negb (map_has key (linePolygonMap s)) && (8 <=? length p)%nat
      then setLinePolygon key {| lp_page := page_pageNumber pg; lp_polygon := p |}
      else ret tt
  | None => ret tt
  end.

(** Lines 170-185: the map of line polygons by page. *)
Definition buildLinePolygonMap (result : AnalyzeResult) : js unit :=
  if truthy (pages result) then
    ps <- member (pages result) ;;
    forEach ps (fun pg _ =>
      if truthy (page_lines pg) then
        ls <- member (page_lines pg) ;;
        forEach ls (indexLine pg)
      else ret tt)
  else ret tt.

(** [key.split(':')[1]], converted to a string by [startsWith]. *)
Definition keyText (key : string) : string :=
  match nth_error (JsString.split ":" key) 1 with
  | Some text => text
  | None => "undefined"
  end.

(** The [for ... of linePolygonMap] loop at lines 203-207. *)
Fixpoint prefixScan (content : string) (pageNumber : nat) (m : Map)
  : option LinePolygon :=
  match m with
  | [] => None
  | (key, value) :: m' =>
      if JsString.startsWith key (JsString.natToString pageNumber ++ ":")
         && JsString.startsWith (JsString.trim content) (keyText key)
      then Some value
      else prefixScan content pageNumber m'
  end.

(** [findLinePolygon] (lines 188-210); [None] is its [null]. *)
Definition findLinePolygon (content : string) (pageNumber : nat)
  : js (option LinePolygon) :=
  s <- get ;;
  let exactKey := mapKey pageNumber (JsString.trim content) in
  if map_has exactKey (linePolygonMap s) then
    ret (map_get exactKey (linePolygonMap s))
  else
    line0 <- member (nth_error (JsString.split JsString.LF content) 0) ;;
    let firstLine := JsString.trim line0 in
    let firstLineKey := mapKey pageNumber firstLine in
    if map_has firstLineKey (linePolygonMap s) then
      ret (map_get firstLineKey (linePolygonMap s))
    else
      ret (prefixScan content pageNumber (linePolygonMap s)).

(** [a || b] on strings: the empty string is falsy. *)
Definition orString (a : option string) (b : string) : string :=
  match a with
  | Some r => if String.eqb r EmptyString then b else r
  | None => b
  end.

(** [a || b] on numbers: zero is falsy. *)
Definition orNat (a : option nat) (b : nat) : nat :=
  match a with
  | Some n => if (n =? 0)%nat then b else n
  | None => b
  end.

(** [a || []] on arrays: every array is truthy. *)
Definition orArray {A} (a : option (list A)) : list A :=
  match a with
  | Some l => l
  | None => []
  end.

(** [paragraph.boundingRegions?.[0]] *)
Definition firstRegion (par : Paragraph) : option BoundingRegion :=
  match par_boundingRegions par with
  | Some (r :: _) => Some r
  | _ => None
  end.

(** The callback of [boundingRegions.map] at lines 243-250. *)
Definition regionSource (region : BoundingRegion) : option string :=
  match flattenPolygon (region_polygon region) with
  | Some p =>
      if (8 <=? length p)%nat
      then Some (sourceString (region_pageNumber region) p)
      else None
  | None => None
  end.

(** [.filter(s => s)] on an array of strings and nulls *)
Definition filterTruthy (l : list (option string)) : list string :=
  flat_map (fun s => match s with
                     | Some t => if String.eqb t EmptyString then [] else [t]
                     | None => []
                     end) l.

Definition isHeadingRole (role : string) : bool :=
  String.eqb role "title" || String.eqb role "sectionHeading"
  || String.eqb role "pageHeader".

(** [isHeading] at lines 220-232, with [role] as line 215 computes it. *)
Definition isHeading (role : option string) (content : string) : bool :=
  isHeadingRole (orString role "paragraph") || headingShape content.

(** [isHeading ? 'heading' : 'paragraph'] *)
Definition typeOf (isHeading : bool) : ItemType :=
  if isHeading then heading else paragraph.

(** [paragraph.boundingRegions?.[0]?.polygon] *)
Definition firstRegionPolygon (par : Paragraph) : Polygon :=
  match firstRegion par with
  | Some r => region_polygon r
  | None => Missing
  end.

(** [paragraph.boundingRegions?.[0]?.pageNumber] *)
Definition firstRegionPage (par : Paragraph) : option nat :=
  option_map region_pageNumber (firstRegion par).

(** The callback of [result.paragraphs.forEach] at lines 213-262. *)
Definition paragraphCallback (par : Paragraph) (index : nat) : js unit :=
  let content := par_content par in
  let role := par_role par in
  s <- get ;;
  setFullText (fullText s ++ content ++ JsString.newline ++ JsString.newline) ;;
  let isHeading := isHeading role content in
  let pageNumber := orNat (firstRegionPage par) 1 in
  let boundingPolygon := orArray (flattenPolygon (firstRegionPolygon par)) in
  nonEmpty <- (if truthy (par_boundingRegions par)
               then regions <- member (par_boundingRegions par) ;;
                    ret (0 <? length regions)%nat
               else ret false) ;;
  source <- (if nonEmpty : bool
             then regions <- member (par_boundingRegions par) ;;
                  let sources := filterTruthy (map regionSource regions) in
                  ret (Some (JsString.join ";" sources))
             else ret None) ;;
  pushItem {| id := "item-" ++ JsString.natToString index;
              type := typeOf isHeading;
              content := content;
              page := pageNumber;
              boundingBox := boundingPolygon;
              source := source |}.

(** The callback of [page.lines.forEach] at lines 269-299. *)
Definition lineCallback (pg : Page) (pageIndex : nat) (line : Line) (lineIndex : nat)
  : js unit :=
  s <- get ;;
  setFullText (fullText s ++ line_content line ++ JsString.newline) ;;
  let content := line_content line in
  let isHeading := headingShape content in   (* no role at line level *)
  let flatPoly := flattenPolygon (line_polygon line) in
  let source :=
    match flatPoly with
    | Some p =>
        if (8 <=? length p)%nat
        then Some (sourceString (page_pageNumber pg) p)
        else None
    | None => None
    end in
  pushItem {| id := "page-" ++ JsString.natToString pageIndex
                      ++ "-line-" ++ JsString.natToString lineIndex;
              type := typeOf isHeading;
              content := content;
              page := page_pageNumber pg;
              boundingBox := orArray flatPoly;
              source := source |}.

(** Lines 212-263: the paragraph path. *)
Definition paragraphPath (result : AnalyzeResult) : js unit :=
  if truthy (paragraphs result) then
    ps <- member (paragraphs result) ;;
    forEach ps paragraphCallback
  else ret tt.

(** Lines 266-302: the fallback over the lines of the pages. *)
Definition linePath (result : AnalyzeResult) : js unit :=
  s <- get ;;
  if (length (items s) =? 0)%nat && truthy (pages result) then
    ps <- member (pages result) ;;
    forEach ps (fun pg pageIndex =>
      if truthy (page_lines pg) then
        ls <- member (page_lines pg) ;;
        forEach ls (lineCallback pg pageIndex)
      else ret tt)
  else ret tt.

(** [result.pages?.length || 0] *)
Definition pageCountOf (result : AnalyzeResult) : nat :=
  orNat (option_map (@length Page) (pages result)) 0.

Definition initialLocals : Locals :=
  {| items := []; fullText := EmptyString; linePolygonMap := [] |}.

Definition body (result : AnalyzeResult) : js StructuredContent :=
  buildLinePolygonMap result ;;
  paragraphPath result ;;
  linePath result ;;
  s <- get ;;
  ret {| sc_items := items s;
         sc_fullText := fullText s;
         sc_pageCount := pageCountOf result |}.

Definition extractStructuredContent (result : AnalyzeResult)
  : completion StructuredContent :=
  match body result initialLocals with
  | Normal (out, _) => Normal out
  | Throw e => Throw e
  end.

(** The state in which [findLinePolygon] would run: after lines 170-185. *)
Definition localsAfterBuild (result : AnalyzeResult) : completion Locals :=
  match buildLinePolygonMap result initialLocals with
  | Normal (_, s) => Normal s
  | Throw e => Throw e
  end.


(** ** Closed forms of the callbacks

    What each callback pushes and appends, as plain functions; the run
    lemmas below show that the monadic code computes exactly these. *)

Definition nl : string := JsString.newline.

Definition concatAll (l : list string) : string := fold_right append EmptyString l.

Definition paragraphItem (par : Paragraph) (index : nat) : ContentItem :=
  {| id := "item-" ++ JsString.natToString index;
     type := typeOf (isHeading (par_role par) (par_content par));
     content := par_content par;
     page := orNat (firstRegionPage par) 1;
     boundingBox := orArray (flattenPolygon (firstRegionPolygon par));
     source := match par_boundingRegions par with
               | Some (r :: rs) =>
                   Some (JsString.join ";" (filterTruthy (map regionSource (r :: rs))))
               | _ => None
               end |}.

Fixpoint paragraphItems (index : nat) (ps : list Paragraph) : list ContentItem :=
  match ps with
  | [] => []
  | par :: ps' => paragraphItem par index :: paragraphItems (S index) ps'
  end.

Definition lineItem (pg : Page) (pageIndex : nat) (line : Line) (lineIndex : nat)
  : ContentItem :=
  {| id := "page-" ++ JsString.natToString pageIndex
             ++ "-line-" ++ JsString.natToString lineIndex;
     type := typeOf (headingShape (line_content line));
     content := line_content line;
     page := page_pageNumber pg;
     boundingBox := orArray (flattenPolygon (line_polygon line));
     source := regionSource {| region_pageNumber := page_pageNumber pg;
                               region_polygon := line_polygon line |} |}.

Fixpoint lineItems (pg : Page) (pageIndex lineIndex : nat) (ls : list Line)
  : list ContentItem :=
  match ls with
  | [] => []
  | line :: ls' =>
      lineItem pg pageIndex line lineIndex :: lineItems pg pageIndex (S lineIndex) ls'
  end.

Fixpoint pageItems (pageIndex : nat) (ps : list Page) : list ContentItem :=
  match ps with
  | [] => []
  | pg :: ps' =>
      lineItems pg pageIndex 0 (orArray (page_lines pg)) ++ pageItems (S pageIndex) ps'
  end.

(** The lines of a document in page-then-line order, each with its page. *)
Definition linesOf (ps : list Page) : list (Page * Line) :=
  flat_map (fun pg => map (pair pg) (orArray (page_lines pg))) ps.

(** The text the fallback appends: every line of every page. *)
Definition linesText (ps : list Page) : string :=
  concatAll (map (fun pl => line_content (snd pl) ++ nl) (linesOf ps)).

(** A line's polygon as the index would store it. *)
Definition indexable (line : Line) : option (list number) :=
  match flattenPolygon (line_polygon line) with
  | Some p => if (8 <=? length p)%nat then Some p else None
  | None => None
  end.

Definition lineKey (pl : Page * Line) : string :=
  mapKey (page_pageNumber (fst pl)) (JsString.trim (line_content (snd pl))).

Definition addLine (m : Map) (pl : Page * Line) : Map :=
  match indexable (snd pl) with
  | Some p =>
      if map_has (lineKey pl) m then m
      else map_set (lineKey pl)
                   {| lp_page := page_pageNumber (fst pl); lp_polygon := p |} m
  | None => m
  end.

Definition indexAll (pls : list (Page * Line)) (m : Map) : Map :=
  fold_left addLine pls m.

(** The entry a line would contribute. *)
Definition entryOf (pl : Page * Line) : option LinePolygon :=
  option_map (fun p => {| lp_page := page_pageNumber (fst pl); lp_polygon := p |})
             (indexable (snd pl)).

(** The entry of the first line, in traversal order, that has the key
    and a polygon the index accepts. *)
Fixpoint firstIndexed (key : string) (pls : list (Page * Line)) : option LinePolygon :=
  match pls with
  | [] => None
  | pl :: rest =>
      if String.eqb (lineKey pl) key
      then match entryOf pl with
           | Some v => Some v
           | None => firstIndexed key rest
           end
      else firstIndexed key rest
  end.

(** Every stored polygon has at least 8 coordinates. *)
Definition wellStored (m : Map) : Prop :=
  Forall (fun kv => 8 <= length (lp_polygon (snd kv))) m.

(** The paragraph path runs when there is at least one paragraph,
    otherwise the items come from the lines of the pages. *)
Definition itemsOf (result : AnalyzeResult) : list ContentItem :=
  match paragraphs result with
  | Some (par :: ps) => paragraphItems 0 (par :: ps)
  | _ => pageItems 0 (orArray (pages result))
  end.

Definition fullTextOf (result : AnalyzeResult) : string :=
  match paragraphs result with
  | Some (par :: ps) => concatAll (map (fun p => par_content p ++ nl ++ nl) (par :: ps))
  | _ => linesText (orArray (pages result))
  end.


(** ** The lookup as the specification words it

    Section 4.1 of the specification, on the same map: exact match of the
    trimmed content, then the trimmed first line when the content holds a
    newline, then a scan in insertion order for the first entry of the page
    whose stored line text is a prefix of the trimmed content. The stored
    line text of an entry of page [pageNumber] is its key without the
    leading [`${pageNumber}:`]. *)

Fixpoint stripPrefix (p s : string) : option string :=
  match p, s with
  | EmptyString, _ => Some s
  | String a p', String b s' => if Ascii.eqb a b then stripPrefix p' s' else None
  | String _ _, EmptyString => None
  end.

Definition storedText (pageNumber : nat) (key : string) : option string :=
  stripPrefix (JsString.natToString pageNumber ++ ":") key.

Fixpoint occurs (sep : ascii) (s : string) : bool :=
  match s with
  | EmptyString => false
  | String c s' => Ascii.eqb c sep || occurs sep s'
  end.

(** The text up to the first separator. *)
Fixpoint firstSegment (sep : ascii) (s : string) : string :=
  match s with
  | EmptyString => EmptyString
  | String c s' => if Ascii.eqb c sep then EmptyString else String c (firstSegment sep s')
  end.

Fixpoint specPrefixScan (content : string) (pageNumber : nat) (m : Map)
  : option LinePolygon :=
  match m with
  | [] => None
  | (key, value) :: m' =>
      match storedText pageNumber key with
      | Some text =>
          if JsString.startsWith (JsString.trim content) text
          then Some value
          else specPrefixScan content pageNumber m'
      | None => specPrefixScan content pageNumber m'
      end
  end.

Definition specLookup (m : Map) (content : string) (pageNumber : nat)
  : option LinePolygon :=
  match map_get (mapKey pageNumber (JsString.trim content)) m with
  | Some v => Some v
  | None =>
      match (if occurs JsString.LF content
             then map_get (mapKey pageNumber
                                  (JsString.trim (firstSegment JsString.LF content))) m
             else None) with
      | Some v => Some v
      | None => specPrefixScan content pageNumber m
      end
  end.

(** ** The request handlers around the extraction (lines 54-149)

    Each handler touches [currentDocumentContext] in one synchronous
    stretch: [/api/analyze] writes it after its last [await], [/api/query]
    reads it before its only [await]. A handler is therefore a function of
    the request, of what its collaborator answers, and of the context. *)

(** What an awaited call gives: a value, or the [message] of the error it
    rejects with. *)
Inductive awaited (A : Type) : Type :=
| Resolved (a : A)
| Rejected (message : string).
Arguments Rejected {A} message.

(** [req.file] as the upload middleware leaves it. *)
Record UploadedFile : Type := {
  originalname : string;
  filename : string;
  path : string
}.

(** [error.message] of what the [catch] receives. *)
Inductive Details : Type :=
| MessageOf (message : string)      (* a rejected collaborator *)
| MessageOfThrown (e : error).      (* an error thrown by the handler's own code *)

(** The bodies sent with [res.json]. *)
Inductive Json : Type :=
| ErrorJson (error : string) (details : option Details)
| AnalysisJson (filename filePath : string) (content : StructuredContent)
| AnswerJson (answer : string).

Record Response : Type := { status : nat; json : Json }.

(** [/api/analyze] (lines 60-96). [analysis] stands for reading the upload
    and polling the layout analysis to its end. *)
Definition analyzeHandler (file : option UploadedFile)
           (analysis : awaited AnalyzeResult) (currentDocumentContext : string)
  : Response * string :=
  match file with
  | None =>
      ({| status := 400; json := ErrorJson "No file uploaded" None |},
       currentDocumentContext)
  | Some f =>
      match analysis with
      | Rejected message =>
          ({| status := 500;
              json := ErrorJson "Failed to analyze document" (Some (MessageOf message)) |},
           currentDocumentContext)
      | Resolved result =>
          match extractStructuredContent result with
          | Throw e =>
              ({| status := 500;
                  json := ErrorJson "Failed to analyze document"
                                    (Some (MessageOfThrown e)) |},
               currentDocumentContext)
          | Normal structuredContent =>
              ({| status := 200;
                  json := AnalysisJson (originalname f)
                                       ("/uploads/" ++ filename f)
                                       structuredContent |},
               sc_fullText structuredContent)
          end
      end
  end.

Record ChatMessage : Type := { chat_role : string; chat_content : string }.

Definition systemPrompt : string :=
  "You are a helpful assistant that analyzes contracts and legal documents. You have access to the ENTIRE document content provided below. When answering questions, search through and analyze ALL parts of the document to provide accurate and comprehensive answers. Cite specific sections, clauses, or page references when relevant.".

(** The template literal at line 131. *)
Definition userPrompt (currentDocumentContext question : string) : string :=
  "Here is the complete document content:" ++ JsString.newline ++ JsString.newline
    ++ currentDocumentContext ++ JsString.newline ++ JsString.newline
    ++ "---" ++ JsString.newline ++ JsString.newline
    ++ "Based on the ENTIRE document above, please answer this question: "
    ++ question.

(** [openai.chat.completions.create] with the model, [max_tokens] and
    [temperature] of line 122-136 applied: from the messages to the
    [message.content] of every choice of the response. *)
Definition ChatCompletions : Type := list ChatMessage -> awaited (list string).

(** [!question] *)
Definition falsyString (a : option string) : bool :=
  match a with
  | Some t => String.eqb t EmptyString
  | None => true
  end.

(** [/api/query] (lines 105-149). [body] is [req.body], [None] when no
    body was parsed; inside it [question] may be missing. *)
Definition queryHandler (body : option (option string)) (create : ChatCompletions)
           (currentDocumentContext : string) : Response :=
  match body with
  | None =>
      {| status := 500;
         json := ErrorJson "Failed to process query" (Some (MessageOfThrown TypeError)) |}
  | Some question =>
      if falsyString question then
        {| status := 400; json := ErrorJson "Question is required" None |}
      else if String.eqb currentDocumentContext EmptyString then
        {| status := 400;
           json := ErrorJson "No document analyzed yet. Please upload a document first."
                             None |}
      else
        match create [ {| chat_role := "system"; chat_content := systemPrompt |};
                       {| chat_role := "user";
                          chat_content :=
                            userPrompt currentDocumentContext
                                       (orString question EmptyString) |} ] with
        | Rejected message =>
            {| status := 500;
               json := ErrorJson "Failed to process query" (Some (MessageOf message)) |}
        | Resolved [] =>
            {| status := 500;
               json := ErrorJson "Failed to process query"
                                 (Some (MessageOfThrown TypeError)) |}
        | Resolved (answer :: _) =>
            {| status := 200; json := AnswerJson answer |}
        end
  end.

Inductive Request : Type :=
| PostAnalyze (file : option UploadedFile) (analysis : awaited AnalyzeResult)
| PostQuery (body : option (option string)) (create : ChatCompletions).

Definition handle (req : Request) (currentDocumentContext : string)
  : Response * string :=
  match req with
  | PostAnalyze file analysis => analyzeHandler file analysis currentDocumentContext
  | PostQuery body create =>
      (queryHandler body create currentDocumentContext, currentDocumentContext)
  end.

(** The server on a sequence of requests, from a given context. *)
Fixpoint serve (reqs : list Request) (currentDocumentContext : string)
  : list Response * string :=
  match reqs with
  | [] => ([], currentDocumentContext)
  | req :: reqs' =>
      let (res, context) := handle req currentDocumentContext in
      let (ress, final) := serve reqs' context in
      (res :: ress, final)
  end.

(** [let currentDocumentContext = ''] at line 55. *)
Definition startupContext : string := EmptyString.

(** An analysis request that carries a file and whose analysis resolves. *)
Definition analysed (req : Request) : bool :=
  match req with
  | PostAnalyze (Some _) (Resolved _) => true
  | _ => false
  end.

(** [`page-${pageIndex}-line-${lineIndex}`] *)
Definition lineId (pageIndex lineIndex : nat) : string :=
  "page-" ++ JsString.natToString pageIndex
    ++ "-line-" ++ JsString.natToString lineIndex.

(** The regions of a paragraph that reach its [source]. *)
Definition usableRegion (region : BoundingRegion) : bool :=
  (8 <=? length (orArray (flattenPolygon (region_polygon region))))%nat.

(** ** The extraction on unchecked values (lines 152-309)

    The same code on a raw result as JSON can hold it: the content of a
    line or paragraph may be absent, an entry of [boundingRegions] may be
    null, and a polygon array may hold any values. On such a result
    [flattenPolygon] and the callbacks can throw. *)

(** A value inside a polygon array. [JsObject] stands for every value that
    is neither undefined, null nor a number (an object, a string, a
    boolean, an array), by its [x] and [y] properties and by its
    conversion to a string. *)
Inductive JsValue : Type :=
| JsUndefined
| JsNull
| JsNumber (n : number)
| JsObject (x y : JsValue) (text : string).

(** The value of a [polygon] property. *)
Inductive RawPolygon : Type :=
| RawMissing                          (* undefined or null *)
| RawNotArray                         (* any value that is no array *)
| RawArray (entries : list JsValue).

Record RawLine : Type := {
  rawline_content : option string;
  rawline_polygon : RawPolygon
}.

Record RawPage : Type := {
  rawpage_pageNumber : nat;
  rawpage_lines : option (list RawLine)
}.

Record RawRegion : Type := {
  rawregion_pageNumber : nat;
  rawregion_polygon : RawPolygon
}.

Record RawParagraph : Type := {
  rawpar_content : option string;
  rawpar_role : option string;
  rawpar_boundingRegions : option (list (option RawRegion))   (* [None] is a null entry *)
}.

Record RawResult : Type := {
  raw_pages : option (list RawPage);
  raw_paragraphs : option (list RawParagraph)
}.

Record RawItem : Type := {
  raw_id : string;
  raw_type : ItemType;
  raw_content : option string;        (* [None] is undefined *)
  raw_page : nat;
  raw_boundingBox : list JsValue;
  raw_source : option string
}.

Record RawStructuredContent : Type := {
  rawsc_items : list RawItem;
  rawsc_fullText : string;
  rawsc_pageCount : nat
}.

Record RawLinePolygon : Type := { rawlp_page : nat; rawlp_polygon : list JsValue }.

Record RawLocals : Type := {
  raw_itemsVar : list RawItem;
  raw_fullTextVar : string;
  raw_linePolygonMap : list (string * RawLinePolygon)
}.

(** [m.has(key)] and [m.set(key, v)] on the raw map *)
Fixpoint rawmap_has (key : string) (m : list (string * RawLinePolygon)) : bool :=
  match m with
  | [] => false
  | (k, _) :: m' => String.eqb k key || rawmap_has key m'
  end.

Fixpoint rawmap_set (key : string) (v : RawLinePolygon)
         (m : list (string * RawLinePolygon)) : list (string * RawLinePolygon) :=
  match m with
  | [] => [(key, v)]
  | (k, w) :: m' =>
      if String.eqb k key then (k, v) :: m' else (k, w) :: rawmap_set key v m'
  end.

(** The monad of the raw callbacks: the same as [js], on the raw locals. *)
Definition rawjs (A : Type) : Type := RawLocals -> completion (A * RawLocals).

Definition rawret {A} (a : A) : rawjs A := fun s => Normal (a, s).

Definition rawbind {A B} (m : rawjs A) (k : A -> rawjs B) : rawjs B :=
  fun s => match m s with
           | Normal (a, s') => k a s'
           | Throw e => Throw e
           end.

Definition rawget : rawjs RawLocals := fun s => Normal (s, s).
Definition rawput (s : RawLocals) : rawjs unit := fun _ => Normal (tt, s).

(** A call that completes without touching the locals. *)
Definition rawcall {A} (c : completion A) : rawjs A :=
  fun s => match c with
           | Normal a => Normal (a, s)
           | Throw e => Throw e
           end.

(** [o.p] or [o.f(...)] on a value that may be absent *)
Definition rawmember {A} (o : option A) : rawjs A :=
  match o with
  | Some a => rawret a
  | None => fun _ => Throw TypeError
  end.

Notation "v <-- m ;; k" := (rawbind m (fun v => k))
  (at level 61, m at next level, right associativity).

Fixpoint rawForEachFrom {A} (index : nat) (arr : list A) (body : A -> nat -> rawjs unit)
  : rawjs unit :=
  match arr with
  | [] => rawret tt
  | a :: arr' => _ <-- body a index ;; rawForEachFrom (S index) arr' body
  end.

Definition rawForEach {A} (arr : list A) (body : A -> nat -> rawjs unit) : rawjs unit :=
  rawForEachFrom 0 arr body.

(** [[pt.x, pt.y]], the callback of [flatMap] at line 158 *)
Definition pointXY (pt : JsValue) : completion (list JsValue) :=
  match pt with
  | JsUndefined | JsNull => Throw TypeError
  | JsNumber _ => Normal [JsUndefined; JsUndefined]
  | JsObject px py _ => Normal [px; py]
  end.

(** [polygon.flatMap(pt => [pt.x, pt.y])] *)
Fixpoint flatMapXY (entries : list JsValue) : completion (list JsValue) :=
  match entries with
  | [] => Normal []
  | pt :: rest =>
      match pointXY pt with
      | Throw e => Throw e
      | Normal xy =>
          match flatMapXY rest with
          | Throw e => Throw e
          | Normal flat => Normal (xy ++ flat)%list
          end
      end
  end.

(** [flattenPolygon] (lines 152-161) on any value; [None] is its null. *)
Definition rawFlattenPolygon (polygon : RawPolygon) : completion (option (list JsValue)) :=
  match polygon with
  | RawMissing | RawNotArray => Normal None           (* !polygon || !Array.isArray *)
  | RawArray (JsNumber n :: rest) =>                  (* typeof polygon[0] === 'number' *)
      Normal (Some (JsNumber n :: rest))
  | RawArray (JsObject (JsNumber px) py text :: rest) =>  (* typeof polygon[0].x === 'number' *)
      match flatMapXY (JsObject (JsNumber px) py text :: rest) with
      | Throw e => Throw e
      | Normal flat => Normal (Some flat)
      end
  | RawArray _ => Normal None
  end.

(** [`${v}`] *)
Definition valueToString (v : JsValue) : string :=
  match v with
  | JsUndefined => "undefined"
  | JsNull => "null"
  | JsNumber n => numberToString n
  | JsObject _ _ text => text
  end.

(** [`${p[i]}`] *)
Definition rawCoordinate (p : list JsValue) (i : nat) : string :=
  match nth_error p i with
  | Some v => valueToString v
  | None => "undefined"
  end.

(** [`D(${pageNumber},${p[0]},...,${p[7]})`] *)
Definition rawSourceString (pageNumber : nat) (p : list JsValue) : string :=
  "D(" ++ JsString.natToString pageNumber
    ++ "," ++ rawCoordinate p 0 ++ "," ++ rawCoordinate p 1
    ++ "," ++ rawCoordinate p 2 ++ "," ++ rawCoordinate p 3
    ++ "," ++ rawCoordinate p 4 ++ "," ++ rawCoordinate p 5
    ++ "," ++ rawCoordinate p 6 ++ "," ++ rawCoordinate p 7 ++ ")".

(** [content + ...]: an absent content concatenates as [undefined]. *)
Definition contentText (content : option string) : string :=
  match content with
  | Some t => t
  | None => "undefined"
  end.

Definition setRawFullText (t : string) : rawjs unit :=
  s <-- rawget ;;
  rawput {| raw_itemsVar := raw_itemsVar s; raw_fullTextVar := t;
            raw_linePolygonMap := raw_linePolygonMap s |}.

Definition pushRawItem (item : RawItem) : rawjs unit :=
  s <-- rawget ;;
  rawput {| raw_itemsVar := raw_itemsVar s ++ [item];
            raw_fullTextVar := raw_fullTextVar s;
            raw_linePolygonMap := raw_linePolygonMap s |}.

Definition setRawLinePolygon (key : string) (v : RawLinePolygon) : rawjs unit :=
  s <-- rawget ;;
  rawput {| raw_itemsVar := raw_itemsVar s; raw_fullTextVar := raw_fullTextVar s;
            raw_linePolygonMap := rawmap_set key v (raw_linePolygonMap s) |}.

(** The callback of [page.lines.forEach] at lines 173-182. *)
Definition rawIndexLine (pg : RawPage) (line : RawLine) (_ : nat) : rawjs unit :=
  content <-- rawmember (rawline_content line) ;;          (* line.content.trim() *)
  let key := mapKey (rawpage_pageNumber pg) (JsString.trim content) in
  flatPoly <-- rawcall (rawFlattenPolygon (rawline_polygon line)) ;;
  s <-- rawget ;;
  match flatPoly with
  | Some p =>
      if negb (rawmap_has key (raw_linePolygonMap s)) && (8 <=? length p)%nat
      then setRawLinePolygon key {| rawlp_page := rawpage_pageNumber pg;
                                    rawlp_polygon := p |}
      else rawret tt
  | None => rawret tt
  end.

(** Lines 170-185. *)
Definition rawBuildLinePolygonMap (result : RawResult) : rawjs unit :=
  if truthy (raw_pages result) then
    ps <-- rawmember (raw_pages result) ;;
    rawForEach ps (fun pg _ =>
      if truthy (rawpage_lines pg) then
        ls <-- rawmember (rawpage_lines pg) ;;
        rawForEach ls (rawIndexLine pg)
      else rawret tt)
  else rawret tt.

(** [paragraph.boundingRegions?.[0]]: [None] is undefined or null. *)
Definition rawFirstRegion (par : RawParagraph) : option RawRegion :=
  match rawpar_boundingRegions par with
  | Some (r :: _) => r
  | _ => None
  end.

(** [paragraph.boundingRegions?.[0]?.polygon] *)
Definition rawFirstRegionPolygon (par : RawParagraph) : RawPolygon :=
  match rawFirstRegion par with
  | Some r => rawregion_polygon r
  | None => RawMissing
  end.

(** The callback of [boundingRegions.map] at lines 243-250; [region.polygon]
    throws on a null region. *)
Definition rawRegionSource (region : option RawRegion) : completion (option string) :=
  match region with
  | None => Throw TypeError
  | Some r =>
      match rawFlattenPolygon (rawregion_polygon r) with
      | Throw e => Throw e
      | Normal (Some p) =>
          if (8 <=? length p)%nat
          then Normal (Some (rawSourceString (rawregion_pageNumber r) p))
          else Normal None
      | Normal None => Normal None
      end
  end.

(** [arr.map(f)] with a callback that may throw *)
Fixpoint mapCompletion {A B} (f : A -> completion B) (arr : list A) : completion (list B) :=
  match arr with
  | [] => Normal []
  | a :: arr' =>
      match f a with
      | Throw e => Throw e
      | Normal b =>
          match mapCompletion f arr' with
          | Throw e => Throw e
          | Normal bs => Normal (b :: bs)
          end
      end
  end.

(** The callback of [result.paragraphs.forEach] at lines 213-262. The
    shape patterns read [content.length] only when the role is none of the
    heading roles. *)
Definition rawParagraphCallback (par : RawParagraph) (index : nat) : rawjs unit :=
  let content := rawpar_content par in
  let role := orString (rawpar_role par) "paragraph" in
  s <-- rawget ;;
  _ <-- setRawFullText (raw_fullTextVar s ++ contentText content
                          ++ JsString.newline ++ JsString.newline) ;;
  isHeading <-- (if isHeadingRole role then rawret true
                 else text <-- rawmember content ;; rawret (headingShape text)) ;;
  let pageNumber := orNat (option_map rawregion_pageNumber (rawFirstRegion par)) 1 in
  flat <-- rawcall (rawFlattenPolygon (rawFirstRegionPolygon par)) ;;
  let boundingPolygon := orArray flat in
  nonEmpty <-- (if truthy (rawpar_boundingRegions par)
                then regions <-- rawmember (rawpar_boundingRegions par) ;;
                     rawret (0 <? length regions)%nat
                else rawret false) ;;
  source <-- (if nonEmpty : bool
              then regions <-- rawmember (rawpar_boundingRegions par) ;;
                   sources <-- rawcall (mapCompletion rawRegionSource regions) ;;
                   rawret (Some (JsString.join ";" (filterTruthy sources)))
              else rawret None) ;;
  pushRawItem {| raw_id := "item-" ++ JsString.natToString index;
                 raw_type := typeOf isHeading;
                 raw_content := content;
                 raw_page := pageNumber;
                 raw_boundingBox := boundingPolygon;
                 raw_source := source |}.

(** The callback of [page.lines.forEach] at lines 269-299. *)
Definition rawLineCallback (pg : RawPage) (pageIndex : nat) (line : RawLine)
           (lineIndex : nat) : rawjs unit :=
  s <-- rawget ;;
  _ <-- setRawFullText (raw_fullTextVar s ++ contentText (rawline_content line)
                          ++ JsString.newline) ;;
  let content := rawline_content line in
  text <-- rawmember content ;;                            (* content.length *)
  let isHeading := headingShape text in
  flatPoly <-- rawcall (rawFlattenPolygon (rawline_polygon line)) ;;
  let source :=
    match flatPoly with
    | Some p =>
        if (8 <=? length p)%nat
        then Some (rawSourceString (rawpage_pageNumber pg) p)
        else None
    | None => None
    end in
  pushRawItem {| raw_id := lineId pageIndex lineIndex;
                 raw_type := typeOf isHeading;
                 raw_content := content;
                 raw_page := rawpage_pageNumber pg;
                 raw_boundingBox := orArray flatPoly;
                 raw_source := source |}.

(** Lines 212-263. *)
Definition rawParagraphPath (result : RawResult) : rawjs unit :=
  if truthy (raw_paragraphs result) then
    ps <-- rawmember (raw_paragraphs result) ;;
    rawForEach ps rawParagraphCallback
  else rawret tt.

(** Lines 266-302. *)
Definition rawLinePath (result : RawResult) : rawjs unit :=
  s <-- rawget ;;
  if (length (raw_itemsVar s) =? 0)%nat && truthy (raw_pages result) then
    ps <-- rawmember (raw_pages result) ;;
    rawForEach ps (fun pg pageIndex =>
      if truthy (rawpage_lines pg) then
        ls <-- rawmember (rawpage_lines pg) ;;
        rawForEach ls (rawLineCallback pg pageIndex)
      else rawret tt)
  else rawret tt.

Definition rawInitialLocals : RawLocals :=
  {| raw_itemsVar := []; raw_fullTextVar := EmptyString; raw_linePolygonMap := [] |}.

Definition rawBody (result : RawResult) : rawjs RawStructuredContent :=
  _ <-- rawBuildLinePolygonMap result ;;
  _ <-- rawParagraphPath result ;;
  _ <-- rawLinePath result ;;
  s <-- rawget ;;
  rawret {| rawsc_items := raw_itemsVar s;
            rawsc_fullText := raw_fullTextVar s;
            rawsc_pageCount := orNat (option_map (@length RawPage) (raw_pages result)) 0 |}.

(** [extractStructuredContent] (lines 164-309) on a raw result. *)
Definition rawExtractStructuredContent (result : RawResult)
  : completion RawStructuredContent :=
  match rawBody result rawInitialLocals with
  | Normal (out, _) => Normal out
  | Throw e => Throw e
  end.

(** *** The raw results on which nothing throws *)

Definition defined (v : JsValue) : bool :=
  match v with
  | JsUndefined | JsNull => false
  | _ => true
  end.

(** A polygon that [flattenPolygon] handles: once the first entry of the
    array is an object with a numeric [x], no entry is undefined or null. *)
Definition flattens (polygon : RawPolygon) : bool :=
  match polygon with
  | RawArray (JsObject (JsNumber _) _ _ :: rest) => forallb defined rest
  | _ => true
  end.

Definition hasContent (content : option string) : bool :=
  match content with Some _ => true | None => false end.

Definition lineOk (line : RawLine) : bool :=
  hasContent (rawline_content line) && flattens (rawline_polygon line).

Definition regionOk (region : option RawRegion) : bool :=
  match region with
  | Some r => flattens (rawregion_polygon r)
  | None => false
  end.

Definition paragraphOk (par : RawParagraph) : bool :=
  (isHeadingRole (orString (rawpar_role par) "paragraph")
   || hasContent (rawpar_content par))
  && forallb regionOk (orArray (rawpar_boundingRegions par)).

Definition pageOk (pg : RawPage) : bool :=
  forallb lineOk (orArray (rawpage_lines pg)).

Definition wellFormed (result : RawResult) : bool :=
  forallb pageOk (orArray (raw_pages result))
  && forallb paragraphOk (orArray (raw_paragraphs result)).

(** A checked result as a raw one. *)
Definition rawPolygonOf (polygon : Polygon) : RawPolygon :=
  match polygon with
  | Missing => RawMissing
  | NotArray => RawNotArray
  | Numbers ns => RawArray (map JsNumber ns)
  | Points pts =>
      RawArray (map (fun pt => JsObject (JsNumber (x pt)) (JsNumber (y pt))
                                        "[object Object]") pts)
  | OtherArray => RawArray [JsObject JsUndefined JsUndefined "[object Object]"]
  end.

Definition rawLineOf (line : Line) : RawLine :=
  {| rawline_content := Some (line_content line);
     rawline_polygon := rawPolygonOf (line_polygon line) |}.

Definition rawPageOf (pg : Page) : RawPage :=
  {| rawpage_pageNumber := page_pageNumber pg;
     rawpage_lines := option_map (map rawLineOf) (page_lines pg) |}.

Definition rawRegionOf (region : BoundingRegion) : option RawRegion :=
  Some {| rawregion_pageNumber := region_pageNumber region;
          rawregion_polygon := rawPolygonOf (region_polygon region) |}.

Definition rawParagraphOf (par : Paragraph) : RawParagraph :=
  {| rawpar_content := Some (par_content par);
     rawpar_role := par_role par;
     rawpar_boundingRegions := option_map (map rawRegionOf) (par_boundingRegions par) |}.

Definition rawResultOf (result : AnalyzeResult) : RawResult :=
  {| raw_pages := option_map (map rawPageOf) (pages result);
     raw_paragraphs := option_map (map rawParagraphOf) (paragraphs result) |}.

Definition rawItemOf (item : ContentItem) : RawItem :=
  {| raw_id := id item;
     raw_type := type item;
     raw_content := Some (content item);
     raw_page := page item;
     raw_boundingBox := map JsNumber (boundingBox item);
     raw_source := source item |}.

Definition rawContentOf (out : StructuredContent) : RawStructuredContent :=
  {| rawsc_items := map rawItemOf (sc_items out);
     rawsc_fullText := sc_fullText out;
     rawsc_pageCount := sc_pageCount out |}.

Definition rawLinePolygonOf (v : LinePolygon) : RawLinePolygon :=
  {| rawlp_page := lp_page v; rawlp_polygon := map JsNumber (lp_polygon v) |}.

Definition rawLocalsOf (s : Locals) : RawLocals :=
  {| raw_itemsVar := map rawItemOf (items s);
     raw_fullTextVar := fullText s;
     raw_linePolygonMap :=
       map (fun kv => (fst kv, rawLinePolygonOf (snd kv))) (linePolygonMap s) |}.

(** ** Sample documents, over any coordinates *)

(** A four-corner polygon as the analysis client delivers it. *)
Definition box (a b : number) : Polygon :=
  Points [ {| x := a; y := a |}; {| x := b; y := a |};
           {| x := b; y := b |}; {| x := a; y := b |} ].

(** One indexed line [Hello] on page 1, and a paragraph [Hello] whose
    only bounding region, on page 1, carries no polygon. *)
Definition sampleBareParagraph (a b : number) : AnalyzeResult :=
  {| pages := Some [ {| page_pageNumber := 1;
                        page_lines := Some [ {| line_content := "Hello";
                                                line_polygon := box a b |} ] |} ];
     paragraphs := Some [ {| par_content := "Hello";
                             par_role := None;
                             par_boundingRegions :=
                               Some [ {| region_pageNumber := 1;
                                         region_polygon := Missing |} ] |} ] |}.

(** No paragraphs, one page with two lines. *)
Definition sampleLinesOnly (a b : number) : AnalyzeResult :=
  {| pages := Some [ {| page_pageNumber := 1;
                        page_lines :=
                          Some [ {| line_content := "SECTION 1";
                                    line_polygon := box a b |};
                                 {| line_content := "Text body here.";
                                    line_polygon := Missing |} ] |} ];
     paragraphs := None |}.

(** Two lines of page 1 with the same text at different places. *)
Definition firstConfidential (a b : number) : Line :=
  {| line_content := "Confidential"; line_polygon := box a b |}.
Definition secondConfidential (c d : number) : Line :=
  {| line_content := " Confidential "; line_polygon := box c d |}.
Definition confidentialPage (a b c d : number) : Page :=
  {| page_pageNumber := 1;
     page_lines := Some [ firstConfidential a b; secondConfidential c d ] |}.
Definition sampleTwoConfidential (a b c d : number) : AnalyzeResult :=
  {| pages := Some [ confidentialPage a b c d ]; paragraphs := None |}.

Definition commencementClause : string :=
  "1.1 This Agreement shall commence on the Effective Date and continue for a period of five years unless earlier terminated as provided herein.".

(** The numbered clause as a paragraph of role [paragraph]. *)
Definition commencementParagraph (text : string) : Paragraph :=
  {| par_content := text; par_role := Some "paragraph"; par_boundingRegions := None |}.
Definition sampleClause (text : string) : AnalyzeResult :=
  {| pages := None; paragraphs := Some [ commencementParagraph text ] |}.

(** One indexed line whose text holds a colon. *)
Definition sampleTotalLine (a b : number) : AnalyzeResult :=
  {| pages := Some [ {| page_pageNumber := 1;
                        page_lines := Some [ {| line_content := "Total: 5";
                                                line_polygon := box a b |} ] |} ];
     paragraphs := None |}.

(** Paragraphs without usable geometry: no regions at all, and one region
    with a two-point polygon. *)
Definition headingWithoutRegions : Paragraph :=
  {| par_content := "ARTICLE I. DEFINITIONS";
     par_role := Some "sectionHeading";
     par_boundingRegions := Some [] |}.
Definition paragraphWithShortPolygon (a b : number) : Paragraph :=
  {| par_content := "Short";
     par_role := None;
     par_boundingRegions :=
       Some [ {| region_pageNumber := 2;
                 region_polygon := Points [ {| x := a; y := a |};
                                            {| x := b; y := b |} ] |} ] |}.
Definition sampleNoGeometry (a b : number) : AnalyzeResult :=
  {| pages := None;
     paragraphs := Some [ headingWithoutRegions; paragraphWithShortPolygon a b ] |}.

(** An upload and a completion service for the handlers. *)
Definition sampleUpload : UploadedFile :=
  {| originalname := "contract.pdf";
     filename := "1700000000000-contract.pdf";
     path := "uploads/1700000000000-contract.pdf" |}.
Definition sampleService : ChatCompletions :=
  fun _ => Resolved [ "Five years." ].
Definition emptyResult : AnalyzeResult := {| pages := None; paragraphs := None |}.

(** A paragraph over three regions: a box on page 1, a two-point polygon,
    a box on page 2. *)
Definition paragraphAcrossPages (a b c d : number) : Paragraph :=
  {| par_content := "Spanning";
     par_role := None;
     par_boundingRegions :=
       Some [ {| region_pageNumber := 1; region_polygon := box a b |};
              {| region_pageNumber := 1;
                 region_polygon := Points [ {| x := a; y := a |};
                                            {| x := b; y := b |} ] |};
              {| region_pageNumber := 2; region_polygon := box c d |} ] |}.
Definition sampleAcrossPages (a b c d : number) : AnalyzeResult :=
  {| pages := None; paragraphs := Some [ paragraphAcrossPages a b c d ] |}.

(** Raw results. A line whose polygon starts with a point and goes on
    with null; a paragraph whose only bounding region is null. *)
Definition rawPoint (a b : number) : JsValue :=
  JsObject (JsNumber a) (JsNumber b) "[object Object]".
Definition sampleNullInPolygon (a b : number) : RawResult :=
  {| raw_pages :=
       Some [ {| rawpage_pageNumber := 1;
                 rawpage_lines :=
                   Some [ {| rawline_content := Some "Hello";
                             rawline_polygon := RawArray [rawPoint a b; JsNull] |} ] |} ];
     raw_paragraphs := None |}.
Definition sampleNullRegion : RawResult :=
  {| raw_pages := None;
     raw_paragraphs :=
       Some [ {| rawpar_content := Some "Hello";
                 rawpar_role := None;
                 rawpar_boundingRegions := Some [ None ] |} ] |}.

(** A raw result with much missing and misshapen, yet nothing that throws:
    a page without lines, lines whose polygon is absent, no array, an array
    of two numbers, an array that starts with a number and goes on with
    null; a title without content and without regions, a paragraph whose
    region's polygon starts with a string. *)
Definition sampleRagged (a b : number) : RawResult :=
  {| raw_pages :=
       Some [ {| rawpage_pageNumber := 1; rawpage_lines := None |};
              {| rawpage_pageNumber := 2;
                 rawpage_lines :=
                   Some [ {| rawline_content := Some "No polygon";
                             rawline_polygon := RawMissing |};
                          {| rawline_content := Some "No array";
                             rawline_polygon := RawNotArray |};
                          {| rawline_content := Some "Two numbers";
                             rawline_polygon := RawArray [JsNumber a; JsNumber b] |};
                          {| rawline_content := Some "Number, then null";
                             rawline_polygon := RawArray [JsNumber a; JsNull] |} ] |} ];
     raw_paragraphs :=
       Some [ {| rawpar_content := None;
                 rawpar_role := Some "title";
                 rawpar_boundingRegions := None |};
              {| rawpar_content := Some "Body";
                 rawpar_role := None;
                 rawpar_boundingRegions :=
                   Some [ Some {| rawregion_pageNumber := 2;
                                  rawregion_polygon :=
                                    RawArray [JsObject JsUndefined JsUndefined "corner";
                                              JsNull] |} ] |} ] |}.

(** ** Strings *)

Lemma append_assoc (a b c : string) : (a ++ b) ++ c = a ++ (b ++ c).
Proof. induction a as [|ch a IH]; simpl; [reflexivity | now rewrite IH]. Qed.

Lemma append_empty_r (a : string) : a ++ EmptyString = a.
Proof. induction a as [|ch a IH]; simpl; [reflexivity | now rewrite IH]. Qed.

Lemma concatAll_app (l1 l2 : list string) :
  concatAll (l1 ++ l2)%list = concatAll l1 ++ concatAll l2.
Proof.
  induction l1 as [|a l1 IH]; simpl; [reflexivity|].
  now rewrite IH, append_assoc.
Qed.

(** ** What the callbacks and loops compute *)

Lemma locals_eta (s : Locals) :
  {| items := items s; fullText := fullText s; linePolygonMap := linePolygonMap s |} = s.
Proof. now destruct s. Qed.

Lemma paragraphCallback_run (par : Paragraph) (index : nat) (s : Locals) :
  paragraphCallback par index s =
  Normal (tt, {| items := items s ++ [paragraphItem par index];
                 fullText := fullText s ++ par_content par ++ nl ++ nl;
                 linePolygonMap := linePolygonMap s |}).
Proof.
  destruct par as [c r brs].
  destruct brs as [[|b brs]|]; reflexivity.
Qed.

Lemma forEach_paragraphs (ps : list Paragraph) :
  forall (index : nat) (s : Locals),
    forEachFrom index ps paragraphCallback s =
    Normal (tt, {| items := items s ++ paragraphItems index ps;
                   fullText := fullText s
                               ++ concatAll (map (fun p => par_content p ++ nl ++ nl) ps);
                   linePolygonMap := linePolygonMap s |}).
Proof.
  induction ps as [|par ps IH]; intros index s; simpl.
  - unfold ret. now rewrite app_nil_r, append_empty_r, locals_eta.
  - unfold bind at 1. rewrite paragraphCallback_run, IH. simpl.
    now rewrite <- app_assoc, !append_assoc.
Qed.

Lemma lineCallback_run (pg : Page) (pageIndex : nat) (line : Line)
      (lineIndex : nat) (s : Locals) :
  lineCallback pg pageIndex line lineIndex s =
  Normal (tt, {| items := items s ++ [lineItem pg pageIndex line lineIndex];
                 fullText := fullText s ++ line_content line ++ nl;
                 linePolygonMap := linePolygonMap s |}).
Proof. reflexivity. Qed.

Lemma forEach_lines (pg : Page) (pageIndex : nat) (ls : list Line) :
  forall (lineIndex : nat) (s : Locals),
    forEachFrom lineIndex ls (lineCallback pg pageIndex) s =
    Normal (tt, {| items := items s ++ lineItems pg pageIndex lineIndex ls;
                   fullText := fullText s
                               ++ concatAll (map (fun l => line_content l ++ nl) ls);
                   linePolygonMap := linePolygonMap s |}).
Proof.
  induction ls as [|line ls IH]; intros lineIndex s; simpl.
  - unfold ret. now rewrite app_nil_r, append_empty_r, locals_eta.
  - unfold bind at 1. rewrite lineCallback_run, IH. simpl.
    now rewrite <- app_assoc, !append_assoc.
Qed.

Lemma forEach_pages (ps : list Page) :
  forall (pageIndex : nat) (s : Locals),
    forEachFrom pageIndex ps
      (fun pg pageIndex =>
         if truthy (page_lines pg)
         then bind (member (page_lines pg))
                   (fun ls => forEach ls (lineCallback pg pageIndex))
         else ret tt) s =
    Normal (tt, {| items := items s ++ pageItems pageIndex ps;
                   fullText := fullText s ++ linesText ps;
                   linePolygonMap := linePolygonMap s |}).
Proof.
  induction ps as [|pg ps IH]; intros pageIndex s; simpl.
  - unfold ret, linesText. simpl. now rewrite app_nil_r, append_empty_r, locals_eta.
  - unfold bind at 1. unfold linesText in *. simpl.
    destruct (page_lines pg) as [ls|]; simpl.
    + unfold bind at 1. simpl. unfold forEach. rewrite forEach_lines, IH. simpl.
      rewrite map_app, concatAll_app, map_map. simpl.
      now rewrite <- app_assoc, !append_assoc.
    + rewrite IH. reflexivity.
Qed.


Lemma indexLine_run (pg : Page) (line : Line) (i : nat) (s : Locals) :
  indexLine pg line i s =
  Normal (tt, {| items := items s; fullText := fullText s;
                 linePolygonMap := addLine (linePolygonMap s) (pg, line) |}).
Proof.
  unfold indexLine, addLine, indexable, lineKey, bind, get, setLinePolygon, put, ret.
  cbn [fst snd].
  destruct (flattenPolygon (line_polygon line)) as [p|].
  - destruct (8 <=? length p)%nat;
      destruct (map_has _ (linePolygonMap s)); cbn [negb andb];
      rewrite ?locals_eta; reflexivity.
  - now rewrite locals_eta.
Qed.

Lemma forEach_indexLine (pg : Page) (ls : list Line) :
  forall (i : nat) (s : Locals),
    forEachFrom i ls (indexLine pg) s =
    Normal (tt, {| items := items s; fullText := fullText s;
                   linePolygonMap := indexAll (map (pair pg) ls) (linePolygonMap s) |}).
Proof.
  induction ls as [|line ls IH]; intros i s; simpl.
  - unfold ret. now rewrite locals_eta.
  - unfold bind at 1. now rewrite indexLine_run, IH.
Qed.

Lemma forEach_indexPages (ps : list Page) :
  forall (i : nat) (s : Locals),
    forEachFrom i ps
      (fun pg _ =>
         if truthy (page_lines pg)
         then bind (member (page_lines pg)) (fun ls => forEach ls (indexLine pg))
         else ret tt) s =
    Normal (tt, {| items := items s; fullText := fullText s;
                   linePolygonMap := indexAll (linesOf ps) (linePolygonMap s) |}).
Proof.
  induction ps as [|pg ps IH]; intros i s; simpl.
  - unfold ret. now rewrite locals_eta.
  - unfold bind at 1. unfold indexAll, linesOf in *. simpl. rewrite fold_left_app.
    destruct (page_lines pg) as [ls|]; simpl.
    + unfold bind at 1. simpl. unfold forEach. now rewrite forEach_indexLine, IH.
    + now rewrite IH.
Qed.

Lemma buildLinePolygonMap_run (result : AnalyzeResult) (s : Locals) :
  buildLinePolygonMap result s =
  Normal (tt, {| items := items s; fullText := fullText s;
                 linePolygonMap :=
                   indexAll (linesOf (orArray (pages result))) (linePolygonMap s) |}).
Proof.
  unfold buildLinePolygonMap.
  destruct (pages result) as [ps|]; simpl.
  - unfold bind at 1. simpl. unfold forEach. apply forEach_indexPages.
  - unfold ret. now rewrite locals_eta.
Qed.

Lemma paragraphItems_length (ps : list Paragraph) :
  forall index, length (paragraphItems index ps) = length ps.
Proof. induction ps as [|par ps IH]; intros index; simpl; [reflexivity | now rewrite IH]. Qed.

Lemma bind_normal {A B} (m : js A) (k : A -> js B) (s s' : Locals) (a : A) :
  m s = Normal (a, s') -> bind m k s = k a s'.
Proof. intros H. unfold bind. now rewrite H. Qed.

Lemma paragraphPath_run (result : AnalyzeResult) (s : Locals) :
  paragraphPath result s =
  Normal (tt, {| items := items s ++ paragraphItems 0 (orArray (paragraphs result));
                 fullText := fullText s
                   ++ concatAll (map (fun p => par_content p ++ nl ++ nl)
                                     (orArray (paragraphs result)));
                 linePolygonMap := linePolygonMap s |}).
Proof.
  unfold paragraphPath.
  destruct (paragraphs result) as [ps|]; simpl.
  - erewrite bind_normal by reflexivity. apply forEach_paragraphs.
  - unfold ret. now rewrite app_nil_r, append_empty_r, locals_eta.
Qed.

Lemma linePath_run (result : AnalyzeResult) (s : Locals) :
  linePath result s =
  Normal (tt, match items s with
              | [] => {| items := pageItems 0 (orArray (pages result));
                         fullText := fullText s ++ linesText (orArray (pages result));
                         linePolygonMap := linePolygonMap s |}
              | _ :: _ => s
              end).
Proof.
  unfold linePath. erewrite bind_normal by reflexivity.
  destruct s as [its ft m]. destruct its as [|it its]; simpl; [|reflexivity].
  destruct (pages result) as [pgs|]; simpl.
  - erewrite bind_normal by reflexivity. unfold forEach. now rewrite forEach_pages.
  - unfold ret, linesText. simpl. now rewrite append_empty_r.
Qed.

Lemma extractStructuredContent_run (result : AnalyzeResult) :
  extractStructuredContent result =
  Normal {| sc_items := itemsOf result;
            sc_fullText := fullTextOf result;
            sc_pageCount := pageCountOf result |}.
Proof.
  unfold extractStructuredContent, body, itemsOf, fullTextOf.
  erewrite bind_normal by apply buildLinePolygonMap_run.
  erewrite bind_normal by apply paragraphPath_run.
  erewrite bind_normal by apply linePath_run.
  erewrite bind_normal by reflexivity.
  destruct (paragraphs result) as [[|par ps]|]; reflexivity.
Qed.


(** ** Decimal indices and item ids *)

Lemma natToString_inj (a b : nat) :
  JsString.natToString a = JsString.natToString b -> a = b.
Proof.
  unfold JsString.natToString. intros H.
  apply Unsigned.to_uint_inj.
  assert (E : Some (Nat.to_uint a) = Some (Nat.to_uint b))
    by (rewrite <- !NilEmpty.usu; now rewrite H).
  now injection E.
Qed.

Lemma nth_error_paragraphItems (ps : list Paragraph) :
  forall (k i : nat),
    nth_error (paragraphItems k ps) i =
    option_map (fun par => paragraphItem par (k + i)) (nth_error ps i).
Proof.
  induction ps as [|par ps IH]; intros k i.
  - now destruct i.
  - destruct i as [|i]; simpl.
    + now rewrite Nat.add_0_r.
    + rewrite IH. now rewrite Nat.add_succ_r.
Qed.

Lemma paragraphItems_ids_from (ps : list Paragraph) :
  forall (k : nat) (name : string),
    In name (map id (paragraphItems k ps)) ->
    exists j, k <= j /\ name = "item-" ++ JsString.natToString j.
Proof.
  induction ps as [|par ps IH]; intros k name Hin; simpl in Hin.
  - contradiction.
  - destruct Hin as [<- | Hin].
    + exists k. split; [lia | reflexivity].
    + destruct (IH _ _ Hin) as (j & Hj & ->). exists j. split; [lia | reflexivity].
Qed.

Lemma paragraphItems_ids_NoDup (ps : list Paragraph) :
  forall k, NoDup (map id (paragraphItems k ps)).
Proof.
  induction ps as [|par ps IH]; intros k; simpl.
  - constructor.
  - constructor; [|apply IH].
    intros Hin. apply paragraphItems_ids_from in Hin.
    destruct Hin as (j & Hj & E). simpl in E.
    injection E as E. apply natToString_inj in E. lia.
Qed.

(** Every paragraph of a result is answered by its own item. *)
Lemma paragraph_item_at (result : AnalyzeResult) (ps : list Paragraph)
      (i : nat) (par : Paragraph) :
  paragraphs result = Some ps ->
  nth_error ps i = Some par ->
  exists out,
    extractStructuredContent result = Normal out
    /\ sc_items out = paragraphItems 0 ps
    /\ nth_error (sc_items out) i = Some (paragraphItem par i).
Proof.
  intros Hps Hi. eexists. split; [apply extractStructuredContent_run|].
  simpl. unfold itemsOf. rewrite Hps.
  destruct ps as [|p0 ps]; [now destruct i|].
  split; [reflexivity|].
  rewrite nth_error_paragraphItems, Hi. reflexivity.
Qed.


(** ** The [source] string of a paragraph *)

Lemma join_empty (sep : string) (l : list string) :
  JsString.join sep l = EmptyString -> Forall (fun t => t <> EmptyString) l -> l = [].
Proof.
  destruct l as [|t l]; [reflexivity|].
  intros E H. inversion H as [|? ? Ht _]; subst.
  destruct t as [|c t]; [contradiction|].
  unfold JsString.join in E. simpl in E. destruct l; discriminate.
Qed.

Lemma filterTruthy_nonempty (l : list (option string)) :
  Forall (fun t => t <> EmptyString) (filterTruthy l).
Proof.
  induction l as [|[t|] l IH]; simpl.
  - constructor.
  - destruct (String.eqb_spec t EmptyString); simpl; [assumption | now constructor].
  - assumption.
Qed.

Lemma filterTruthy_nil (l : list (option string)) :
  filterTruthy l = [] <-> Forall (fun o => o = None \/ o = Some EmptyString) l.
Proof.
  induction l as [|[t|] l IH]; simpl.
  - split; [constructor | reflexivity].
  - destruct (String.eqb_spec t EmptyString) as [->|Ht]; simpl.
    + rewrite IH. split; [now constructor; [right|] |].
      intros H. now inversion H.
    + split; [discriminate|].
      intros H. inversion H as [|? ? [E|E] _]; subst; [discriminate|].
      injection E as E. contradiction.
  - rewrite IH. split; [now constructor; [left|] |].
    intros H. now inversion H.
Qed.

Lemma regionSource_not_empty (region : BoundingRegion) :
  regionSource region <> Some EmptyString.
Proof.
  unfold regionSource.
  destruct (flattenPolygon (region_polygon region)) as [p|]; [|discriminate].
  destruct (8 <=? length p)%nat; discriminate.
Qed.

(** A region is dropped from [source] exactly when its flattened polygon,
    no geometry counting as no coordinates, has fewer than 8 of them. *)
Lemma regionSource_none (region : BoundingRegion) :
  regionSource region = None <->
  length (orArray (flattenPolygon (region_polygon region))) < 8.
Proof.
  unfold regionSource.
  destruct (flattenPolygon (region_polygon region)) as [p|]; cbn [orArray length].
  - destruct (Nat.leb_spec 8 (length p)); split; intros Hlt;
      try discriminate; try reflexivity; lia.
  - split; [lia | reflexivity].
Qed.

Lemma source_empty_string (rs : list BoundingRegion) :
  JsString.join ";" (filterTruthy (map regionSource rs)) = EmptyString <->
  Forall (fun r => length (orArray (flattenPolygon (region_polygon r))) < 8) rs.
Proof.
  split.
  - intros E. apply join_empty in E; [|apply filterTruthy_nonempty].
    apply filterTruthy_nil in E. rewrite Forall_map in E.
    eapply Forall_impl; [|exact E]. intros r [H|H]; simpl in H.
    + now apply regionSource_none.
    + now apply regionSource_not_empty in H.
  - intros H.
    assert (E : filterTruthy (map regionSource rs) = []).
    { apply filterTruthy_nil. rewrite Forall_map.
      eapply Forall_impl; [|exact H]. intros r Hr. left.
      now apply regionSource_none. }
    now rewrite E.
Qed.


(** ** Contents of the items, in order *)

Lemma paragraphItems_contents (ps : list Paragraph) :
  forall k, map content (paragraphItems k ps) = map par_content ps.
Proof. induction ps as [|par ps IH]; intros k; simpl; [reflexivity | now rewrite IH]. Qed.

Lemma lineItems_contents (pg : Page) (pageIndex : nat) (ls : list Line) :
  forall k, map content (lineItems pg pageIndex k ls) = map line_content ls.
Proof. induction ls as [|l ls IH]; intros k; simpl; [reflexivity | now rewrite IH]. Qed.

Lemma lineItems_types (pg : Page) (pageIndex : nat) (ls : list Line) :
  forall k, map type (lineItems pg pageIndex k ls) =
            map (fun l => typeOf (headingShape (line_content l))) ls.
Proof. induction ls as [|l ls IH]; intros k; simpl; [reflexivity | now rewrite IH]. Qed.

Lemma pageItems_contents (pgs : list Page) :
  forall k, map content (pageItems k pgs) =
            map (fun pl => line_content (snd pl)) (linesOf pgs).
Proof.
  induction pgs as [|pg pgs IH]; intros k; simpl; [reflexivity|].
  unfold linesOf in *. simpl.
  now rewrite !map_app, lineItems_contents, IH, map_map.
Qed.

Lemma pageItems_types (pgs : list Page) :
  forall k, map type (pageItems k pgs) =
            map (fun pl => typeOf (headingShape (line_content (snd pl)))) (linesOf pgs).
Proof.
  induction pgs as [|pg pgs IH]; intros k; simpl; [reflexivity|].
  unfold linesOf in *. simpl.
  now rewrite !map_app, lineItems_types, IH, map_map.
Qed.

Lemma concatAll_contents (sep : string) (its : list ContentItem) :
  concatAll (map (fun it => content it ++ sep) its) =
  concatAll (map (fun c => c ++ sep) (map content its)).
Proof. now rewrite map_map. Qed.

(** ** Properties of the extraction *)

(** C2. With at least one paragraph, the extraction returns exactly one
    item per paragraph, in the order of the paragraphs: the i-th item
    carries the content of the i-th paragraph and the id [item-i], and no
    two items of the run share an id. *)
Theorem paragraph_path_one_item_per_paragraph
        (result : AnalyzeResult) (ps : list Paragraph) :
  paragraphs result = Some ps ->
  ps <> [] ->
  exists out,
    extractStructuredContent result = Normal out
    /\ length (sc_items out) = length ps
    /\ (forall i par,
          nth_error ps i = Some par ->
          exists item,
            nth_error (sc_items out) i = Some item
            /\ content item = par_content par
            /\ id item = "item-" ++ JsString.natToString i)
    /\ NoDup (map id (sc_items out)).
Proof.
  intros Hps Hne.
  destruct ps as [|p0 ps]; [contradiction|].
  eexists. split; [apply extractStructuredContent_run|].
  simpl sc_items. unfold itemsOf. rewrite Hps.
  split; [apply paragraphItems_length|].
  split; [|apply paragraphItems_ids_NoDup].
  intros i par Hi. exists (paragraphItem par i).
  rewrite nth_error_paragraphItems, Hi. now split.
Qed.

(** C9. A paragraph whose [boundingRegions] is the empty array yields an
    item on page 1, with an empty [boundingBox] and a null [source]. *)
Theorem empty_boundingRegions_defaults
        (result : AnalyzeResult) (ps : list Paragraph) (i : nat) (par : Paragraph) :
  paragraphs result = Some ps ->
  nth_error ps i = Some par ->
  par_boundingRegions par = Some [] ->
  exists out item,
    extractStructuredContent result = Normal out
    /\ nth_error (sc_items out) i = Some item
    /\ page item = 1
    /\ boundingBox item = []
    /\ source item = None.
Proof.
  intros Hps Hi Hbr.
  destruct (paragraph_item_at result i Hps Hi) as (out & Hrun & _ & Hitem).
  exists out, (paragraphItem par i). repeat split; try assumption.
  - unfold paragraphItem, firstRegionPage, firstRegion. simpl. now rewrite Hbr.
  - unfold paragraphItem, firstRegionPolygon, firstRegion. simpl. now rewrite Hbr.
  - unfold paragraphItem. simpl. now rewrite Hbr.
Qed.

(** C10. In the paragraph path [source] is null exactly when
    [boundingRegions] is absent or empty, and it is the empty string
    exactly when [boundingRegions] is non-empty and every region's
    flattened polygon (no geometry counting as no coordinates) has fewer
    than 8 coordinates. *)
Theorem source_null_versus_empty
        (result : AnalyzeResult) (ps : list Paragraph) (i : nat) (par : Paragraph) :
  paragraphs result = Some ps ->
  nth_error ps i = Some par ->
  exists out item,
    extractStructuredContent result = Normal out
    /\ nth_error (sc_items out) i = Some item
    /\ (source item = None <->
        par_boundingRegions par = None \/ par_boundingRegions par = Some [])
    /\ (source item = Some EmptyString <->
        exists rs,
          par_boundingRegions par = Some rs
          /\ rs <> []
          /\ Forall (fun r =>
                       length (orArray (flattenPolygon (region_polygon r))) < 8) rs).
Proof.
  intros Hps Hi.
  destruct (paragraph_item_at result i Hps Hi) as (out & Hrun & _ & Hitem).
  exists out, (paragraphItem par i). split; [assumption|]. split; [assumption|].
  unfold paragraphItem. cbn [source].
  destruct (par_boundingRegions par) as [[|r rs]|].
  - split; split; try tauto.
    + discriminate.
    + intros (rs & E & Hne & _). injection E as <-. contradiction.
  - split; split.
    + discriminate.
    + intros [E|E]; discriminate.
    + intros E. injection E as E. exists (r :: rs).
      split; [reflexivity|]. split; [discriminate|].
      now apply (proj1 (source_empty_string (r :: rs))).
    + intros (rs' & E & _ & H). injection E as <-.
      f_equal. now apply (proj2 (source_empty_string (r :: rs))).
  - split; split; try tauto.
    + discriminate.
    + intros (rs & E & _). discriminate.
Qed.


(** C1, as the code has it. The [boundingBox] of a paragraph's item is
    the flattened polygon of the paragraph's own first bounding region and
    nothing else: when that polygon is absent or of no recognised shape the
    [boundingBox] is empty, whatever [linePolygonMap] holds, because the
    paragraph callback never calls [findLinePolygon]. *)
Theorem paragraph_boundingBox_from_own_region
        (result : AnalyzeResult) (ps : list Paragraph) (i : nat) (par : Paragraph) :
  paragraphs result = Some ps ->
  nth_error ps i = Some par ->
  exists out item,
    extractStructuredContent result = Normal out
    /\ nth_error (sc_items out) i = Some item
    /\ boundingBox item = orArray (flattenPolygon (firstRegionPolygon par))
    /\ (flattenPolygon (firstRegionPolygon par) = None -> boundingBox item = []).
Proof.
  intros Hps Hi.
  destruct (paragraph_item_at result i Hps Hi) as (out & Hrun & _ & Hitem).
  exists out, (paragraphItem par i). repeat split; try assumption.
  intros E. simpl. now rewrite E.
Qed.

(** C3, as the code has it. The returned [fullText] is the items'
    contents concatenated in order, each followed by two newlines when the
    paragraph path ran, and each followed by a single newline when the
    fallback over the lines ran. *)
Theorem fullText_follows_items (result : AnalyzeResult) :
  exists out,
    extractStructuredContent result = Normal out
    /\ sc_fullText out =
       concatAll (map (fun it => content it ++
                                 match paragraphs result with
                                 | Some (_ :: _) => nl ++ nl
                                 | _ => nl
                                 end)
                      (sc_items out)).
Proof.
  eexists. split; [apply extractStructuredContent_run|].
  simpl. unfold itemsOf, fullTextOf, linesText.
  destruct (paragraphs result) as [[|p0 ps]|];
    rewrite concatAll_contents;
    now rewrite ?paragraphItems_contents, ?pageItems_contents, map_map.
Qed.

(** C5, as the code has it. A paragraph whose role is outside the
    recognised heading set and whose content has 150 characters or more is
    classified [paragraph], whatever shape its content has. *)
Theorem long_content_is_paragraph
        (result : AnalyzeResult) (ps : list Paragraph) (i : nat) (par : Paragraph) :
  paragraphs result = Some ps ->
  nth_error ps i = Some par ->
  orString (par_role par) "paragraph" <> "title" ->
  orString (par_role par) "paragraph" <> "sectionHeading" ->
  orString (par_role par) "paragraph" <> "pageHeader" ->
  150 <= String.length (par_content par) ->
  exists out item,
    extractStructuredContent result = Normal out
    /\ nth_error (sc_items out) i = Some item
    /\ type item = paragraph.
Proof.
  intros Hps Hi H1 H2 H3 Hlen.
  destruct (paragraph_item_at result i Hps Hi) as (out & Hrun & _ & Hitem).
  exists out, (paragraphItem par i). repeat split; try assumption.
  unfold paragraphItem, isHeading, isHeadingRole, headingShape. cbn [type].
  apply String.eqb_neq in H1, H2, H3. rewrite H1, H2, H3.
  assert (E : (String.length (par_content par) <? 150)%nat = false)
    by (apply Nat.ltb_ge; exact Hlen).
  now rewrite E.
Qed.

(** C7. Without paragraphs (absent or empty) and with pages, the
    extraction returns one item per line in page-then-line order, typed by
    the shape of the line's content alone, and [fullText] is every line's
    content followed by a single newline. For one page with the lines
    [SECTION 1] and [Text body here.] that is a heading, then a paragraph,
    and the text [SECTION 1\nText body here.\n]. *)
Theorem line_fallback_per_line :
  (forall (result : AnalyzeResult) (pgs : list Page),
      paragraphs result = None \/ paragraphs result = Some [] ->
      pages result = Some pgs ->
      exists out,
        extractStructuredContent result = Normal out
        /\ length (sc_items out) = length (linesOf pgs)
        /\ map content (sc_items out) =
           map (fun pl => line_content (snd pl)) (linesOf pgs)
        /\ map type (sc_items out) =
           map (fun pl => typeOf (headingShape (line_content (snd pl)))) (linesOf pgs)
        /\ sc_fullText out =
           concatAll (map (fun pl => line_content (snd pl) ++ nl) (linesOf pgs)))
  /\ (forall (n : nat) (polygon1 polygon2 : Polygon),
        exists out,
          extractStructuredContent
            {| pages := Some [ {| page_pageNumber := n;
                                  page_lines :=
                                    Some [ {| line_content := "SECTION 1";
                                              line_polygon := polygon1 |};
                                           {| line_content := "Text body here.";
                                              line_polygon := polygon2 |} ] |} ];
               paragraphs := None |} = Normal out
          /\ map content (sc_items out) = ["SECTION 1"; "Text body here."]
          /\ map type (sc_items out) = [heading; paragraph]
          /\ sc_fullText out = "SECTION 1" ++ nl ++ "Text body here." ++ nl).
Proof.
  split.
  - intros result pgs Hno Hpg.
    eexists. split; [apply extractStructuredContent_run|].
    simpl. unfold itemsOf, fullTextOf, linesText.
    assert (E : match paragraphs result with
                | Some (par :: ps) => paragraphItems 0 (par :: ps)
                | _ => pageItems 0 (orArray (pages result))
                end = pageItems 0 pgs)
      by (rewrite Hpg; destruct Hno as [-> | ->]; reflexivity).
    rewrite E.
    repeat split.
    + rewrite <- (length_map content), pageItems_contents. apply length_map.
    + apply pageItems_contents.
    + apply pageItems_types.
    + rewrite Hpg. destruct Hno as [-> | ->]; reflexivity.
  - intros n polygon1 polygon2.
    eexists. split; [apply extractStructuredContent_run|].
    repeat split; vm_compute; reflexivity.
Qed.

(** ** The index of line polygons *)

Lemma uint_key_inj (d d' : uint) (t t' : string) :
  NilEmpty.string_of_uint d ++ ":" ++ t = NilEmpty.string_of_uint d' ++ ":" ++ t' ->
  d = d' /\ t = t'.
Proof.
  revert d'.
  induction d as [|d IH|d IH|d IH|d IH|d IH|d IH|d IH|d IH|d IH|d IH];
    intros [|d'|d'|d'|d'|d'|d'|d'|d'|d'|d']; simpl; intros H;
    try discriminate;
    try (injection H as H; destruct (IH _ H) as [-> ->]; now split).
  injection H as H. now split.
Qed.

(** Distinct pages or distinct line texts never share a key. *)
Lemma mapKey_inj (n n' : nat) (t t' : string) :
  mapKey n t = mapKey n' t' -> n = n' /\ t = t'.
Proof.
  unfold mapKey, JsString.natToString. intros H.
  apply uint_key_inj in H. destruct H as [H ->].
  split; [now apply Unsigned.to_uint_inj | reflexivity].
Qed.

Lemma map_get_set_same (key : string) (v : LinePolygon) (m : Map) :
  map_get key (map_set key v m) = Some v.
Proof.
  induction m as [|[k w] m IH]; simpl.
  - now rewrite String.eqb_refl.
  - destruct (String.eqb k key) eqn:E; simpl; now rewrite E.
Qed.

Lemma map_get_set_other (key key' : string) (v : LinePolygon) (m : Map) :
  key' <> key -> map_get key' (map_set key v m) = map_get key' m.
Proof.
  intros Hne. induction m as [|[k w] m IH]; simpl.
  - destruct (String.eqb_spec key key'); [congruence | reflexivity].
  - destruct (String.eqb_spec k key) as [->|Hk]; simpl.
    + destruct (String.eqb_spec key key'); [congruence | reflexivity].
    + now rewrite IH.
Qed.

Lemma map_get_addLine (key : string) (m : Map) (pl : Page * Line) :
  map_get key (addLine m pl) =
  match map_get key m with
  | Some v => Some v
  | None => if String.eqb (lineKey pl) key then entryOf pl else None
  end.
Proof.
  unfold addLine, entryOf, map_has.
  destruct (indexable (snd pl)) as [p|]; simpl.
  - destruct (String.eqb_spec (lineKey pl) key) as [<-|Hne].
    + destruct (map_get (lineKey pl) m) eqn:E; [exact E|].
      apply map_get_set_same.
    + destruct (map_get (lineKey pl) m) eqn:E.
      * now destruct (map_get key m).
      * rewrite map_get_set_other by congruence. now destruct (map_get key m).
  - destruct (map_get key m); [reflexivity|]. now destruct (String.eqb _ _).
Qed.

Lemma map_get_indexAll (key : string) (pls : list (Page * Line)) :
  forall m,
    map_get key (indexAll pls m) =
    match map_get key m with
    | Some v => Some v
    | None => firstIndexed key pls
    end.
Proof.
  induction pls as [|pl pls IH]; intros m; simpl.
  - now destruct (map_get key m).
  - unfold indexAll in *. simpl. rewrite IH, map_get_addLine.
    destruct (map_get key m); [reflexivity|].
    destruct (String.eqb (lineKey pl) key); [|reflexivity].
    now destruct (entryOf pl).
Qed.

Lemma map_set_wellStored (key : string) (v : LinePolygon) (m : Map) :
  8 <= length (lp_polygon v) -> wellStored m -> wellStored (map_set key v m).
Proof.
  intros Hv. unfold wellStored.
  induction m as [|[k w] m IH]; simpl; intros H.
  - now repeat constructor.
  - inversion H as [|? ? Hw Hm]; subst.
    destruct (String.eqb k key); constructor; auto.
Qed.

Lemma addLine_wellStored (m : Map) (pl : Page * Line) :
  wellStored m -> wellStored (addLine m pl).
Proof.
  intros H. unfold addLine, indexable.
  destruct (flattenPolygon (line_polygon (snd pl))) as [p|]; [|assumption].
  destruct (Nat.leb_spec 8 (length p)); [|assumption].
  destruct (map_has _ m); [assumption|].
  now apply map_set_wellStored.
Qed.

Lemma indexAll_wellStored (pls : list (Page * Line)) :
  forall m, wellStored m -> wellStored (indexAll pls m).
Proof.
  induction pls as [|pl pls IH]; intros m H; simpl; [assumption|].
  apply IH. now apply addLine_wellStored.
Qed.

Lemma firstIndexed_first (key : string) (before after : list (Page * Line))
      (pl : Page * Line) (v : LinePolygon) :
  lineKey pl = key ->
  entryOf pl = Some v ->
  (forall pl0, In pl0 before -> lineKey pl0 = key -> entryOf pl0 = None) ->
  firstIndexed key (before ++ pl :: after) = Some v.
Proof.
  intros Hk Hv. induction before as [|pl0 before IH]; intros Hb; simpl.
  - now rewrite Hk, String.eqb_refl, Hv.
  - destruct (String.eqb_spec (lineKey pl0) key) as [E|_].
    + rewrite (Hb pl0 (or_introl eq_refl) E). apply IH.
      intros pl1 Hin. apply Hb. now right.
    + apply IH. intros pl1 Hin. apply Hb. now right.
Qed.


(** ** The lookup against its specification *)

Lemma split_head (sep : ascii) (s : string) :
  exists rest, JsString.split sep s = firstSegment sep s :: rest.
Proof.
  induction s as [|c s [rest IH]]; simpl.
  - now exists [].
  - destruct (Ascii.eqb c sep).
    + now eexists.
    + rewrite IH. now eexists.
Qed.

Lemma firstSegment_absent (sep : ascii) (s : string) :
  occurs sep s = false -> firstSegment sep s = s.
Proof.
  induction s as [|c s IH]; simpl; [reflexivity|].
  destruct (Ascii.eqb c sep); simpl; [discriminate|].
  intros H. now rewrite IH.
Qed.

Lemma split_app_sep (sep : ascii) (a t : string) :
  occurs sep a = false ->
  JsString.split sep (a ++ String sep t) = a :: JsString.split sep t.
Proof.
  induction a as [|c a IH]; simpl.
  - intros _. now rewrite Ascii.eqb_refl.
  - destruct (Ascii.eqb c sep); simpl; [discriminate|].
    intros H. now rewrite IH.
Qed.

Lemma uint_no_colon (d : uint) : occurs ":" (NilEmpty.string_of_uint d) = false.
Proof. induction d; simpl; auto. Qed.

Lemma stripPrefix_app (p s t : string) : stripPrefix p s = Some t -> s = p ++ t.
Proof.
  revert s. induction p as [|a p IH]; intros [|b s]; simpl; intros H;
    try discriminate; try (now injection H as ->).
  destruct (Ascii.eqb_spec a b) as [->|]; [|discriminate].
  now rewrite (IH _ H).
Qed.

Lemma startsWith_stripPrefix (s p : string) :
  JsString.startsWith s p =
  match stripPrefix p s with Some _ => true | None => false end.
Proof.
  revert s. induction p as [|a p IH]; intros [|b s]; simpl; try reflexivity.
  destruct (Ascii.eqb a b); simpl; [apply IH | reflexivity].
Qed.

(** For a key of the page, the scan compares with the stored text cut at
    its first colon. *)
Lemma keyText_of_page_key (pageNumber : nat) (key text : string) :
  storedText pageNumber key = Some text ->
  keyText key = firstSegment ":" text.
Proof.
  unfold storedText. intros H. apply stripPrefix_app in H. subst key.
  unfold keyText. rewrite append_assoc. simpl.
  rewrite split_app_sep by apply uint_no_colon.
  destruct (split_head ":" text) as [rest ->]. reflexivity.
Qed.

Lemma prefixScan_refines_spec (content : string) (pageNumber : nat) (m : Map) :
  (forall key v text,
      In (key, v) m -> storedText pageNumber key = Some text ->
      occurs ":" text = false) ->
  prefixScan content pageNumber m = specPrefixScan content pageNumber m.
Proof.
  induction m as [|[key value] m IH]; intros Hfree; simpl; [reflexivity|].
  rewrite startsWith_stripPrefix. fold (storedText pageNumber key).
  destruct (storedText pageNumber key) as [text|] eqn:E; simpl.
  - rewrite (keyText_of_page_key _ _ E).
    rewrite firstSegment_absent by (eapply Hfree; [now left | exact E]).
    destruct (JsString.startsWith _ text); [reflexivity|].
    apply IH. intros k v t Hin. apply (Hfree k v t). now right.
  - apply IH. intros k v t Hin. apply (Hfree k v t). now right.
Qed.

(** The lookup never throws, and it resolves as the specification says
    when no stored line text of the page holds a colon. *)
Lemma findLinePolygon_refines_spec (content : string) (pageNumber : nat) (s : Locals) :
  (forall key v text,
      In (key, v) (linePolygonMap s) -> storedText pageNumber key = Some text ->
      occurs ":" text = false) ->
  findLinePolygon content pageNumber s =
  Normal (specLookup (linePolygonMap s) content pageNumber, s).
Proof.
  intros Hfree. unfold findLinePolygon, specLookup, map_has.
  erewrite bind_normal by reflexivity.
  destruct (map_get (mapKey pageNumber (JsString.trim content)) (linePolygonMap s))
    as [v|] eqn:Eexact; [reflexivity|].
  destruct (split_head JsString.LF content) as [rest Hsplit].
  rewrite Hsplit. simpl nth_error. erewrite bind_normal by reflexivity.
  destruct (occurs JsString.LF content) eqn:Enl.
  - destruct (map_get (mapKey pageNumber
                              (JsString.trim (firstSegment JsString.LF content)))
                      (linePolygonMap s)) as [v|]; [reflexivity|].
    unfold ret. now rewrite prefixScan_refines_spec.
  - rewrite firstSegment_absent by exact Enl. rewrite Eexact.
    unfold ret. now rewrite prefixScan_refines_spec.
Qed.

(** C4. The index built from the pages stores only polygons of at least
    8 coordinates, and the entry under a page and a trimmed line text is
    that of the first line, in page-then-line order, that has them and a
    polygon the index accepts: no later line with the same page and
    trimmed text replaces it. *)
Theorem index_keeps_first_seen (result : AnalyzeResult) :
  exists s,
    localsAfterBuild result = Normal s
    /\ Forall (fun kv => 8 <= length (lp_polygon (snd kv))) (linePolygonMap s)
    /\ (forall before pg1 l1 after p1,
          linesOf (orArray (pages result)) = (before ++ (pg1, l1) :: after)%list ->
          flattenPolygon (line_polygon l1) = Some p1 ->
          8 <= length p1 ->
          (forall pg0 l0,
              In (pg0, l0) before ->
              page_pageNumber pg0 = page_pageNumber pg1 ->
              JsString.trim (line_content l0) = JsString.trim (line_content l1) ->
              indexable l0 = None) ->
          map_get (mapKey (page_pageNumber pg1) (JsString.trim (line_content l1)))
                  (linePolygonMap s)
          = Some {| lp_page := page_pageNumber pg1; lp_polygon := p1 |}).
Proof.
  unfold localsAfterBuild. rewrite buildLinePolygonMap_run.
  eexists. split; [reflexivity|]. simpl. split.
  - apply indexAll_wellStored. constructor.
  - intros before pg1 l1 after p1 Hsplit Hflat Hlen Hfirst.
    rewrite map_get_indexAll, Hsplit. simpl.
    apply firstIndexed_first.
    + reflexivity.
    + unfold entryOf, indexable. cbn [fst snd]. rewrite Hflat.
      destruct (Nat.leb_spec 8 (length p1)); [reflexivity | lia].
    + intros [pg0 l0] Hin Hkey. unfold lineKey in Hkey. simpl in Hkey.
      apply mapKey_inj in Hkey. destruct Hkey as [Hpage Htext].
      unfold entryOf. simpl. now rewrite (Hfirst pg0 l0 Hin Hpage Htext).
Qed.

(** ** Further properties of [flattenPolygon] *)

Lemma flat_points_length (pts : list Point2D) :
  length (flat_map (fun pt => [x pt; y pt]) pts) = 2 * length pts.
Proof. induction pts as [|pt pts IH]; simpl; [reflexivity | rewrite IH; lia]. Qed.

Lemma flat_points_nth (pts : list Point2D) :
  forall i pt,
    nth_error pts i = Some pt ->
    nth_error (flat_map (fun pt => [x pt; y pt]) pts) (2 * i) = Some (x pt)
    /\ nth_error (flat_map (fun pt => [x pt; y pt]) pts) (2 * i + 1) = Some (y pt).
Proof.
  induction pts as [|pt0 pts IH]; intros [|i] pt H; try discriminate.
  - injection H as ->. now split.
  - replace (2 * S i) with (S (S (2 * i))) by lia. simpl in *. now apply IH.
Qed.

(** X1. An array of points flattens to twice as many numbers, the x and y
    of each point in order; the empty array gives no geometry. *)
Theorem flattenPolygon_points (pts : list Point2D) :
  (pts = [] -> flattenPolygon (Points pts) = None)
  /\ (pts <> [] ->
      exists p,
        flattenPolygon (Points pts) = Some p
        /\ length p = 2 * length pts
        /\ (forall i pt,
              nth_error pts i = Some pt ->
              nth_error p (2 * i) = Some (x pt)
              /\ nth_error p (2 * i + 1) = Some (y pt))).
Proof.
  split.
  - now intros ->.
  - intros Hne. destruct pts as [|pt0 pts]; [contradiction|].
    eexists. split; [reflexivity|]. split.
    + apply flat_points_length.
    + apply flat_points_nth.
Qed.

(** X2. What [flattenPolygon] returns is never the empty array, and
    flattening it again returns it unchanged. *)
Theorem flattenPolygon_idempotent (polygon : Polygon) (p : list number) :
  flattenPolygon polygon = Some p ->
  p <> [] /\ flattenPolygon (Numbers p) = Some p.
Proof.
  destruct polygon as [| |[|n ns]|[|pt pts]|]; simpl; intros H;
    try discriminate; injection H as <-; split; try discriminate; reflexivity.
Qed.

(** ** Further properties of the extraction *)

Lemma append_is_empty (a b : string) :
  a ++ b = EmptyString -> a = EmptyString /\ b = EmptyString.
Proof. destruct a; simpl; [now split | discriminate]. Qed.

Lemma concatAll_terminated_empty {A} (f : A -> string) (l : list A) :
  concatAll (map (fun a => f a ++ nl) l) = EmptyString <-> l = [].
Proof.
  destruct l as [|a l]; simpl; split; try reflexivity; try discriminate.
  intros H. apply append_is_empty in H. destruct H as [H _].
  apply append_is_empty in H. destruct H as [_ H]. discriminate.
Qed.

Lemma pageItems_nil (pgs : list Page) (k : nat) :
  pageItems k pgs = [] <-> linesOf pgs = [].
Proof.
  split; intros H.
  - apply (f_equal (map content)) in H. rewrite pageItems_contents in H.
    now destruct (linesOf pgs).
  - assert (E : map content (pageItems k pgs) = []) by (now rewrite pageItems_contents, H).
    now destruct (pageItems k pgs).
Qed.

Lemma fullTextOf_empty (result : AnalyzeResult) :
  fullTextOf result = EmptyString <-> itemsOf result = [].
Proof.
  unfold itemsOf, fullTextOf, linesText.
  destruct (paragraphs result) as [[|p0 ps]|].
  - now rewrite concatAll_terminated_empty, pageItems_nil.
  - simpl. split; [|discriminate].
    intros H. apply append_is_empty in H. destruct H as [H _].
    apply append_is_empty in H. destruct H as [_ H]. discriminate.
  - now rewrite concatAll_terminated_empty, pageItems_nil.
Qed.

(** X7. The returned [fullText] is empty exactly when no item is
    returned. *)
Theorem fullText_empty_iff_no_items (result : AnalyzeResult) :
  exists out,
    extractStructuredContent result = Normal out
    /\ (sc_fullText out = EmptyString <-> sc_items out = []).
Proof.
  eexists. split; [apply extractStructuredContent_run|].
  apply fullTextOf_empty.
Qed.

(** X8. With at least one paragraph the pages play no part in the items
    or in the text: two results with the same paragraphs give the same
    items and the same [fullText]. *)
Theorem paragraph_path_ignores_pages
        (result1 result2 : AnalyzeResult) (par : Paragraph) (ps : list Paragraph) :
  paragraphs result1 = Some (par :: ps) ->
  paragraphs result2 = Some (par :: ps) ->
  exists out1 out2,
    extractStructuredContent result1 = Normal out1
    /\ extractStructuredContent result2 = Normal out2
    /\ sc_items out1 = sc_items out2
    /\ sc_fullText out1 = sc_fullText out2.
Proof.
  intros H1 H2. do 2 eexists.
  split; [apply extractStructuredContent_run|].
  split; [apply extractStructuredContent_run|].
  simpl. unfold itemsOf, fullTextOf. now rewrite H1, H2.
Qed.

Lemma paragraphItems_pages (ps : list Paragraph) :
  forall k, Forall (fun it => 1 <= page it) (paragraphItems k ps).
Proof.
  induction ps as [|par ps IH]; intros k; simpl; constructor; [|apply IH].
  simpl. unfold orNat. destruct (firstRegionPage par) as [[|n]|]; simpl; lia.
Qed.

(** X9. In the paragraph path no item is on page 0: a first region with
    page number 0, like a missing one, puts the item on page 1. *)
Theorem paragraph_items_on_positive_pages
        (result : AnalyzeResult) (ps : list Paragraph) :
  paragraphs result = Some ps ->
  ps <> [] ->
  exists out,
    extractStructuredContent result = Normal out
    /\ Forall (fun it => 1 <= page it) (sc_items out).
Proof.
  intros Hps Hne. destruct ps as [|p0 ps]; [contradiction|].
  eexists. split; [apply extractStructuredContent_run|].
  simpl. unfold itemsOf. rewrite Hps. apply paragraphItems_pages.
Qed.

Lemma regionSource_usable (region : BoundingRegion) :
  regionSource region =
  if usableRegion region
  then Some (sourceString (region_pageNumber region)
                          (orArray (flattenPolygon (region_polygon region))))
  else None.
Proof.
  unfold regionSource, usableRegion.
  destruct (flattenPolygon (region_polygon region)) as [p|]; reflexivity.
Qed.

Lemma filterTruthy_regions (rs : list BoundingRegion) :
  filterTruthy (map regionSource rs) =
  map (fun r => sourceString (region_pageNumber r)
                             (orArray (flattenPolygon (region_polygon r))))
      (filter usableRegion rs).
Proof.
  induction rs as [|r rs IH]; simpl; [reflexivity|].
  rewrite regionSource_usable.
  destruct (usableRegion r); simpl; now rewrite IH.
Qed.

(** X10. The [source] of a paragraph with bounding regions lists exactly
    the regions whose flattened polygon has at least 8 coordinates, in
    their order, each as its [D(...)] string, joined by semicolons. *)
Theorem paragraph_source_lists_usable_regions
        (result : AnalyzeResult) (ps : list Paragraph) (i : nat) (par : Paragraph)
        (rs : list BoundingRegion) :
  paragraphs result = Some ps ->
  nth_error ps i = Some par ->
  par_boundingRegions par = Some rs ->
  rs <> [] ->
  exists out item,
    extractStructuredContent result = Normal out
    /\ nth_error (sc_items out) i = Some item
    /\ source item =
       Some (JsString.join ";"
               (map (fun r => sourceString (region_pageNumber r)
                                           (orArray (flattenPolygon (region_polygon r))))
                    (filter usableRegion rs))).
Proof.
  intros Hps Hi Hrs Hne.
  destruct (paragraph_item_at result i Hps Hi) as (out & Hrun & _ & Hitem).
  exists out, (paragraphItem par i). split; [assumption|]. split; [assumption|].
  unfold paragraphItem. cbn [source]. rewrite Hrs.
  destruct rs as [|r rs]; [contradiction|].
  now rewrite filterTruthy_regions.
Qed.

Lemma lineItem_source (pg : Page) (pageIndex : nat) (line : Line) (lineIndex : nat) :
  let it := lineItem pg pageIndex line lineIndex in
  source it =
  if (8 <=? length (boundingBox it))%nat
  then Some (sourceString (page it) (boundingBox it))
  else None.
Proof.
  unfold lineItem, regionSource. cbn [source boundingBox page region_polygon region_pageNumber].
  destruct (flattenPolygon (line_polygon line)) as [p|]; reflexivity.
Qed.

Lemma pageItems_sources (pgs : list Page) :
  forall k,
    Forall (fun it => source it =
                      if (8 <=? length (boundingBox it))%nat
                      then Some (sourceString (page it) (boundingBox it))
                      else None)
           (pageItems k pgs).
Proof.
  induction pgs as [|pg pgs IH]; intros k; simpl; [constructor|].
  apply Forall_app. split; [|apply IH].
  generalize 0 as j. induction (orArray (page_lines pg)) as [|l ls IHl]; intros j; simpl.
  - constructor.
  - constructor; [apply lineItem_source | apply IHl].
Qed.

(** X11. In the fallback over the lines an item's [source] follows from
    its own [page] and [boundingBox]: it is the [D(...)] string of the
    two when the [boundingBox] has at least 8 coordinates, and null
    otherwise. *)
Theorem line_items_source_matches_boundingBox
        (result : AnalyzeResult) (pgs : list Page) :
  paragraphs result = None \/ paragraphs result = Some [] ->
  pages result = Some pgs ->
  exists out,
    extractStructuredContent result = Normal out
    /\ Forall (fun it => source it =
                         if (8 <=? length (boundingBox it))%nat
                         then Some (sourceString (page it) (boundingBox it))
                         else None)
              (sc_items out).
Proof.
  intros Hno Hpg. eexists. split; [apply extractStructuredContent_run|].
  simpl. unfold itemsOf. rewrite Hpg.
  destruct Hno as [-> | ->]; apply pageItems_sources.
Qed.

(** ** Ids of the fallback items *)

Lemma uint_dash_inj (d d' : uint) (t t' : string) :
  NilEmpty.string_of_uint d ++ String "-" t
  = NilEmpty.string_of_uint d' ++ String "-" t' ->
  d = d' /\ t = t'.
Proof.
  revert d'.
  induction d as [|d IH|d IH|d IH|d IH|d IH|d IH|d IH|d IH|d IH|d IH];
    intros [|d'|d'|d'|d'|d'|d'|d'|d'|d'|d']; simpl; intros H;
    try discriminate;
    try (injection H as H; destruct (IH _ H) as [-> ->]; now split).
  injection H as H. now split.
Qed.

Lemma lineId_inj (a b a' b' : nat) :
  lineId a b = lineId a' b' -> a = a' /\ b = b'.
Proof.
  unfold lineId, JsString.natToString. simpl. intros H.
  injection H as H. apply uint_dash_inj in H. destruct H as [Ha H].
  injection H as H.
  split; apply Unsigned.to_uint_inj; [exact Ha|].
  assert (E : Some (Nat.to_uint b) = Some (Nat.to_uint b'))
    by (rewrite <- !NilEmpty.usu; now rewrite H).
  now injection E.
Qed.

Lemma lineItems_ids_from (pg : Page) (pageIndex : nat) (ls : list Line) :
  forall (k : nat) (name : string),
    In name (map id (lineItems pg pageIndex k ls)) ->
    exists j, k <= j /\ name = lineId pageIndex j.
Proof.
  induction ls as [|l ls IH]; intros k name Hin; simpl in Hin.
  - contradiction.
  - destruct Hin as [<- | Hin].
    + exists k. split; [lia | reflexivity].
    + destruct (IH _ _ Hin) as (j & Hj & ->). exists j. split; [lia | reflexivity].
Qed.

Lemma lineItems_ids_NoDup (pg : Page) (pageIndex : nat) (ls : list Line) :
  forall k, NoDup (map id (lineItems pg pageIndex k ls)).
Proof.
  induction ls as [|l ls IH]; intros k; simpl.
  - constructor.
  - constructor; [|apply IH].
    intros Hin. apply lineItems_ids_from in Hin.
    destruct Hin as (j & Hj & E).
    apply lineId_inj in E. lia.
Qed.

Lemma pageItems_ids_from (pgs : list Page) :
  forall (k : nat) (name : string),
    In name (map id (pageItems k pgs)) ->
    exists pageIndex lineIndex, k <= pageIndex /\ name = lineId pageIndex lineIndex.
Proof.
  induction pgs as [|pg pgs IH]; intros k name Hin; simpl in Hin.
  - contradiction.
  - rewrite map_app in Hin. apply in_app_or in Hin. destruct Hin as [Hin | Hin].
    + apply lineItems_ids_from in Hin. destruct Hin as (j & _ & ->).
      exists k, j. split; [lia | reflexivity].
    + destruct (IH _ _ Hin) as (pi & li & Hpi & ->).
      exists pi, li. split; [lia | reflexivity].
Qed.

Lemma pageItems_ids_NoDup (pgs : list Page) :
  forall k, NoDup (map id (pageItems k pgs)).
Proof.
  induction pgs as [|pg pgs IH]; intros k; simpl.
  - constructor.
  - rewrite map_app. apply NoDup_app; [apply lineItems_ids_NoDup | apply IH |].
    intros name Hin Hin'.
    apply lineItems_ids_from in Hin. destruct Hin as (j & _ & ->).
    apply pageItems_ids_from in Hin'. destruct Hin' as (pi & li & Hpi & E).
    apply lineId_inj in E. lia.
Qed.

Lemma nth_error_lineItems (pg : Page) (pageIndex : nat) (ls : list Line) :
  forall (k j : nat),
    nth_error (lineItems pg pageIndex k ls) j =
    option_map (fun line => lineItem pg pageIndex line (k + j)) (nth_error ls j).
Proof.
  induction ls as [|l ls IH]; intros k j.
  - now destruct j.
  - destruct j as [|j]; simpl.
    + now rewrite Nat.add_0_r.
    + rewrite IH. now rewrite Nat.add_succ_r.
Qed.

(** X12. In the fallback over the lines no two items of a run share an
    id, and on a single page the j-th item has the id [page-0-line-j]. *)
Theorem line_path_ids_unique (result : AnalyzeResult) (pgs : list Page) :
  paragraphs result = None \/ paragraphs result = Some [] ->
  pages result = Some pgs ->
  exists out,
    extractStructuredContent result = Normal out
    /\ NoDup (map id (sc_items out))
    /\ (forall pg ls j line,
          pgs = [pg] -> page_lines pg = Some ls -> nth_error ls j = Some line ->
          exists item,
            nth_error (sc_items out) j = Some item
            /\ id item = lineId 0 j
            /\ content item = line_content line).
Proof.
  intros Hno Hpg. eexists. split; [apply extractStructuredContent_run|].
  simpl. unfold itemsOf. rewrite Hpg.
  assert (E : match paragraphs result with
              | Some (par :: ps) => paragraphItems 0 (par :: ps)
              | _ => pageItems 0 (orArray (Some pgs))
              end = pageItems 0 pgs)
    by (destruct Hno as [-> | ->]; reflexivity).
  rewrite E. split; [apply pageItems_ids_NoDup|].
  intros pg ls j line -> Hls Hj. simpl. rewrite Hls, app_nil_r. simpl.
  rewrite nth_error_lineItems, Hj. simpl. eexists. split; [reflexivity|]. now split.
Qed.

(** X13. A paragraph whose role is [title], [sectionHeading] or
    [pageHeader] is a heading whatever its content is, 150 characters and
    more included. *)
Theorem heading_role_overrides_shape
        (result : AnalyzeResult) (ps : list Paragraph) (i : nat) (par : Paragraph) :
  paragraphs result = Some ps ->
  nth_error ps i = Some par ->
  par_role par = Some "title" \/ par_role par = Some "sectionHeading"
  \/ par_role par = Some "pageHeader" ->
  exists out item,
    extractStructuredContent result = Normal out
    /\ nth_error (sc_items out) i = Some item
    /\ type item = heading.
Proof.
  intros Hps Hi Hrole.
  destruct (paragraph_item_at result i Hps Hi) as (out & Hrun & _ & Hitem).
  exists out, (paragraphItem par i). split; [assumption|]. split; [assumption|].
  unfold paragraphItem, isHeading. cbn [type].
  destruct Hrole as [-> | [-> | ->]]; reflexivity.
Qed.

(** X14. Under the [i] flag the patterns [/^ARTICLE\s+[IVX\d]+/i] and
    [/^SECTION\s+[\d\.]+/i] accept exactly what [/^Article.../i] and
    [/^Section.../i] accept, so the heading shape is decided by the other
    six patterns alone. *)
Theorem upper_case_patterns_are_redundant (content : string) :
  testPrefix re_ARTICLE content = testPrefix re_Article content
  /\ testPrefix re_SECTION content = testPrefix re_Section content
  /\ headingShape content =
     (String.length content <? 150)%nat &&
     (testWhole re_allCaps content
      || testPrefix re_numbered content
      || testPrefix re_Article content
      || testPrefix re_Section content
      || testWhole re_titleColon content
      || testPrefix re_Clause content).
Proof.
  assert (EA : re_ARTICLE = re_Article) by reflexivity.
  assert (ES : re_SECTION = re_Section) by reflexivity.
  unfold headingShape. rewrite EA, ES.
  split; [reflexivity|]. split; [reflexivity|].
  destruct (String.length content <? 150)%nat; [|reflexivity]. cbn [andb].
  destruct (testWhole re_allCaps content); [reflexivity|].
  destruct (testPrefix re_numbered content); [reflexivity|].
  destruct (testPrefix re_Article content); [reflexivity|].
  destruct (testPrefix re_Section content); reflexivity.
Qed.

(** ** Further properties of the index and of the lookup *)

Lemma map_get_in (key : string) (v : LinePolygon) (m : Map) :
  map_get key m = Some v -> In (key, v) m.
Proof.
  induction m as [|[k w] m IH]; simpl; [discriminate|].
  destruct (String.eqb_spec k key) as [->|_]; intros H.
  - injection H as ->. now left.
  - right. now apply IH.
Qed.

Lemma map_get_none (key : string) (m : Map) :
  map_get key m = None -> ~ In key (map fst m).
Proof.
  induction m as [|[k w] m IH]; simpl; [tauto|].
  destruct (String.eqb_spec k key) as [->|Hne]; [discriminate|].
  intros H [E|Hin]; [contradiction | now apply IH].
Qed.

Lemma map_set_fresh (key : string) (v : LinePolygon) (m : Map) :
  map_get key m = None -> map_set key v m = (m ++ [(key, v)])%list.
Proof.
  induction m as [|[k w] m IH]; simpl; [reflexivity|].
  destruct (String.eqb k key); [discriminate|].
  intros H. now rewrite IH.
Qed.

(** One step of the build either leaves the map alone or appends the
    line's entry under a key the map did not have. *)
Lemma addLine_cases (m : Map) (pl : Page * Line) :
  addLine m pl = m
  \/ exists v, entryOf pl = Some v
               /\ map_get (lineKey pl) m = None
               /\ addLine m pl = (m ++ [(lineKey pl, v)])%list.
Proof.
  unfold addLine, entryOf, map_has.
  destruct (indexable (snd pl)) as [p|]; [|now left].
  destruct (map_get (lineKey pl) m) eqn:E; [now left|].
  right. eexists. split; [reflexivity|]. split; [reflexivity|].
  now apply map_set_fresh.
Qed.

Lemma indexAll_entries (pls : list (Page * Line)) :
  forall m key v,
    In (key, v) (indexAll pls m) ->
    In (key, v) m
    \/ exists pl, In pl pls /\ key = lineKey pl /\ entryOf pl = Some v.
Proof.
  induction pls as [|pl pls IH]; intros m key v Hin; simpl in Hin; [now left|].
  apply IH in Hin. destruct Hin as [Hin | (pl' & Hpl & Hk & Hv)].
  - destruct (addLine_cases m pl) as [E | (w & Hw & _ & E)]; rewrite E in Hin.
    + now left.
    + apply in_app_or in Hin. destruct Hin as [Hin | [Hin | []]]; [now left|].
      injection Hin as <- <-. right. exists pl. split; [now left | now split].
  - right. exists pl'. split; [now right | now split].
Qed.

Lemma indexAll_keys_NoDup (pls : list (Page * Line)) :
  forall m, NoDup (map fst m) -> NoDup (map fst (indexAll pls m)).
Proof.
  induction pls as [|pl pls IH]; intros m H; simpl; [assumption|].
  apply IH.
  destruct (addLine_cases m pl) as [E | (w & _ & Hnone & E)]; rewrite E; [assumption|].
  rewrite map_app. simpl. apply NoDup_app; [assumption | repeat constructor; tauto |].
  intros k Hin [<- | []]. now apply map_get_none in Hnone.
Qed.

Lemma indexAll_length (pls : list (Page * Line)) :
  forall m, length (indexAll pls m) <= length m + length pls.
Proof.
  unfold indexAll.
  induction pls as [|pl pls IH]; intros m; simpl; [lia|].
  specialize (IH (addLine m pl)).
  assert (H : length (addLine m pl) <= S (length m)).
  { destruct (addLine_cases m pl) as [E | (w & _ & _ & E)]; rewrite E; [lia|].
    rewrite length_app. simpl. lia. }
  lia.
Qed.

Lemma entryOf_some (pl : Page * Line) (v : LinePolygon) :
  entryOf pl = Some v ->
  lp_page v = page_pageNumber (fst pl)
  /\ flattenPolygon (line_polygon (snd pl)) = Some (lp_polygon v)
  /\ 8 <= length (lp_polygon v).
Proof.
  unfold entryOf, indexable.
  destruct (flattenPolygon (line_polygon (snd pl))) as [p|]; [|discriminate].
  destruct (Nat.leb_spec 8 (length p)) as [Hlen|_]; [|discriminate].
  simpl. intros E. injection E as <-. simpl. now repeat split.
Qed.

(** X6. The index holds every key once, has at most one entry per line of
    the document, and each entry stands under the page and trimmed text of
    a line of its own page whose polygon it carries; building it pushes no
    item and appends no text. *)
Theorem index_keys_unique (result : AnalyzeResult) :
  exists s,
    localsAfterBuild result = Normal s
    /\ items s = [] /\ fullText s = EmptyString
    /\ NoDup (map fst (linePolygonMap s))
    /\ length (linePolygonMap s) <= length (linesOf (orArray (pages result)))
    /\ (forall key v,
          In (key, v) (linePolygonMap s) ->
          exists pg line,
            In (pg, line) (linesOf (orArray (pages result)))
            /\ key = mapKey (page_pageNumber pg) (JsString.trim (line_content line))
            /\ lp_page v = page_pageNumber pg
            /\ flattenPolygon (line_polygon line) = Some (lp_polygon v)).
Proof.
  unfold localsAfterBuild. rewrite buildLinePolygonMap_run.
  eexists. split; [reflexivity|]. simpl.
  split; [reflexivity|]. split; [reflexivity|].
  split; [apply indexAll_keys_NoDup; constructor|].
  split; [apply (indexAll_length _ [])|].
  intros key v Hin. apply indexAll_entries in Hin.
  destruct Hin as [[] | ([pg line] & Hpl & -> & Hv)].
  apply entryOf_some in Hv. destruct Hv as (Hpage & Hflat & _).
  exists pg, line. now repeat split.
Qed.

Lemma startsWith_app (p t : string) : JsString.startsWith (p ++ t) p = true.
Proof.
  induction p as [|a p IH]; simpl.
  - now destruct t.
  - now rewrite Ascii.eqb_refl.
Qed.

Lemma mapKey_startsWith (n : nat) (text : string) :
  JsString.startsWith (mapKey n text) (JsString.natToString n ++ ":") = true.
Proof. unfold mapKey. rewrite <- append_assoc. apply startsWith_app. Qed.

Lemma page_of_key (n m : nat) (text : string) :
  JsString.startsWith (mapKey m text) (JsString.natToString n ++ ":") = true -> m = n.
Proof.
  rewrite startsWith_stripPrefix.
  destruct (stripPrefix _ _) as [t|] eqn:E; [|discriminate]. intros _.
  apply stripPrefix_app in E. rewrite append_assoc in E.
  now apply (@mapKey_inj m n text t).
Qed.

Lemma prefixScan_in (content : string) (n : nat) (m : Map) (v : LinePolygon) :
  prefixScan content n m = Some v ->
  exists key,
    In (key, v) m
    /\ JsString.startsWith key (JsString.natToString n ++ ":") = true.
Proof.
  induction m as [|[key value] m IH]; simpl; [discriminate|].
  destruct (JsString.startsWith key _) eqn:Ekey; simpl.
  - destruct (JsString.startsWith (JsString.trim content) (keyText key)).
    + intros H. injection H as ->. exists key. split; [now left | assumption].
    + intros H. destruct (IH H) as (k & Hin & Hk). exists k. split; [now right | assumption].
  - intros H. destruct (IH H) as (k & Hin & Hk). exists k. split; [now right | assumption].
Qed.

(** The lookup returns normally, leaves the locals alone, and what it
    returns is an entry of the map under a key of the page asked for. *)
Lemma findLinePolygon_result (content : string) (n : nat) (s : Locals) :
  exists r,
    findLinePolygon content n s = Normal (r, s)
    /\ (forall v, r = Some v ->
         exists key,
           In (key, v) (linePolygonMap s)
           /\ JsString.startsWith key (JsString.natToString n ++ ":") = true).
Proof.
  unfold findLinePolygon, map_has. erewrite bind_normal by reflexivity.
  destruct (map_get (mapKey n (JsString.trim content)) (linePolygonMap s))
    as [v|] eqn:Eexact.
  - eexists. split; [reflexivity|]. intros w H. injection H as <-.
    eexists. split; [apply map_get_in; eassumption | apply mapKey_startsWith].
  - destruct (split_head JsString.LF content) as [rest Hsplit].
    rewrite Hsplit. simpl nth_error. erewrite bind_normal by reflexivity.
    destruct (map_get (mapKey n (JsString.trim (firstSegment JsString.LF content)))
                      (linePolygonMap s)) as [v|] eqn:Efirst.
    + eexists. split; [reflexivity|]. intros w H. injection H as <-.
      eexists. split; [apply map_get_in; eassumption | apply mapKey_startsWith].
    + eexists. split; [reflexivity|]. intros w H. now apply prefixScan_in in H.
Qed.

(** X3. On the index built from a result the lookup never throws and
    changes nothing, and an entry it returns is the geometry of a line of
    the page asked for: it carries that page number and the flattened
    polygon, of at least 8 coordinates, of a line of that page. *)
Theorem lookup_returns_geometry_of_the_page
        (result : AnalyzeResult) (content : string) (n : nat) :
  exists s r,
    localsAfterBuild result = Normal s
    /\ findLinePolygon content n s = Normal (r, s)
    /\ (forall v, r = Some v ->
         lp_page v = n
         /\ 8 <= length (lp_polygon v)
         /\ exists pg line,
             In (pg, line) (linesOf (orArray (pages result)))
             /\ page_pageNumber pg = n
             /\ flattenPolygon (line_polygon line) = Some (lp_polygon v)).
Proof.
  unfold localsAfterBuild. rewrite buildLinePolygonMap_run.
  eexists. destruct (findLinePolygon_result content n
    {| items := items initialLocals; fullText := fullText initialLocals;
       linePolygonMap := indexAll (linesOf (orArray (pages result)))
                                  (linePolygonMap initialLocals) |})
    as (r & Hrun & Hr).
  exists r. split; [reflexivity|]. split; [exact Hrun|].
  intros v Hv. destruct (Hr v Hv) as (key & Hin & Hkey). simpl in Hin.
  apply indexAll_entries in Hin.
  destruct Hin as [[] | ([pg line] & Hpl & -> & Hentry)].
  apply entryOf_some in Hentry. destruct Hentry as (Hpage & Hflat & Hlen).
  apply page_of_key in Hkey. simpl in *.
  split; [congruence|]. split; [assumption|].
  exists pg, line. now repeat split.
Qed.

Lemma firstIndexed_some (pls : list (Page * Line)) (pl : Page * Line) (w : LinePolygon) :
  In pl pls -> entryOf pl = Some w ->
  exists v, firstIndexed (lineKey pl) pls = Some v.
Proof.
  induction pls as [|pl0 pls IH]; intros Hin Hw; [contradiction|]. simpl.
  destruct Hin as [-> | Hin].
  - rewrite String.eqb_refl, Hw. now eexists.
  - destruct (String.eqb (lineKey pl0) (lineKey pl)); [|now apply IH].
    destruct (entryOf pl0); [now eexists | now apply IH].
Qed.

Lemma startsWith_refl (t : string) : JsString.startsWith t t = true.
Proof. induction t as [|c t IH]; simpl; [reflexivity | now rewrite Ascii.eqb_refl]. Qed.

Lemma startsWith_trans (t p q : string) :
  JsString.startsWith t p = true -> JsString.startsWith p q = true ->
  JsString.startsWith t q = true.
Proof.
  revert t p. induction q as [|c q IH]; intros t p Hp Hq.
  - now destruct t.
  - destruct p as [|b p]; [discriminate|]. destruct t as [|a t]; [discriminate|].
    simpl in *. apply andb_prop in Hp, Hq. destruct Hp as [Hba Hp], Hq as [Hcb Hq].
    apply Ascii.eqb_eq in Hba, Hcb. subst. rewrite Ascii.eqb_refl. simpl.
    now apply (IH t p).
Qed.

Lemma startsWith_firstSegment (sep : ascii) (t : string) :
  JsString.startsWith t (firstSegment sep t) = true.
Proof.
  induction t as [|c t IH]; simpl; [reflexivity|].
  destruct (Ascii.eqb c sep); simpl; [reflexivity|].
  now rewrite Ascii.eqb_refl.
Qed.

Lemma stripPrefix_append (p t : string) : stripPrefix p (p ++ t) = Some t.
Proof. induction p as [|a p IH]; simpl; [reflexivity | now rewrite Ascii.eqb_refl]. Qed.

Lemma keyText_mapKey (n : nat) (text : string) :
  keyText (mapKey n text) = firstSegment ":" text.
Proof.
  apply (keyText_of_page_key n). unfold storedText, mapKey.
  rewrite <- append_assoc. apply stripPrefix_append.
Qed.

Lemma prefixScan_some (content : string) (n : nat) (m : Map)
      (key : string) (v : LinePolygon) :
  In (key, v) m ->
  JsString.startsWith key (JsString.natToString n ++ ":") = true ->
  JsString.startsWith (JsString.trim content) (keyText key) = true ->
  exists w, prefixScan content n m = Some w.
Proof.
  intros Hin Hkey Htext. induction m as [|[k u] m IH]; [contradiction|]. simpl.
  destruct Hin as [E | Hin].
  - injection E as -> ->. rewrite Hkey, Htext. now eexists.
  - destruct (_ && _); [now eexists | now apply IH].
Qed.

(** X4. Build, then look up: for a line of the document whose flattened
    polygon has at least 8 coordinates, the lookup, on the line's page, of
    any content whose trimmed text starts with the line's trimmed text (the
    line's own content included) returns an entry, of that page and with at
    least 8 coordinates. *)
Theorem indexed_line_is_found
        (result : AnalyzeResult) (pg : Page) (line : Line) (p : list number)
        (content : string) :
  In (pg, line) (linesOf (orArray (pages result))) ->
  flattenPolygon (line_polygon line) = Some p ->
  8 <= length p ->
  JsString.startsWith (JsString.trim content) (JsString.trim (line_content line)) = true ->
  exists s v,
    localsAfterBuild result = Normal s
    /\ findLinePolygon content (page_pageNumber pg) s = Normal (Some v, s)
    /\ lp_page v = page_pageNumber pg
    /\ 8 <= length (lp_polygon v).
Proof.
  intros Hin Hflat Hlen Hprefix.
  unfold localsAfterBuild. rewrite buildLinePolygonMap_run.
  cbn [items fullText linePolygonMap initialLocals].
  set (m := indexAll (linesOf (orArray (pages result))) []).
  set (s := {| items := []; fullText := EmptyString; linePolygonMap := m |}).
  assert (Hentry : entryOf (pg, line)
                   = Some {| lp_page := page_pageNumber pg; lp_polygon := p |}).
  { unfold entryOf, indexable. cbn [fst snd]. rewrite Hflat.
    destruct (Nat.leb_spec 8 (length p)); [reflexivity | lia]. }
  destruct (firstIndexed_some _ _ Hin Hentry) as (v0 & Hv0).
  assert (Hget : map_get (lineKey (pg, line)) m = Some v0)
    by (unfold m; now rewrite map_get_indexAll).
  apply map_get_in in Hget.
  destruct (findLinePolygon_result content (page_pageNumber pg) s) as (r & Hrun & Hr).
  assert (Hsome : exists v, r = Some v).
  { revert Hrun. unfold findLinePolygon, map_has. erewrite bind_normal by reflexivity.
    cbn [linePolygonMap s].
    destruct (map_get (mapKey (page_pageNumber pg) (JsString.trim content)) m) as [v|].
    - intros E. injection E as <-. now eexists.
    - destruct (split_head JsString.LF content) as [rest Hsplit].
      rewrite Hsplit. simpl nth_error. erewrite bind_normal by reflexivity.
      destruct (map_get _ m) as [v|].
      + intros E. injection E as <-. now eexists.
      + destruct (@prefixScan_some content (page_pageNumber pg) m _ _ Hget) as (w & Hw).
        * apply mapKey_startsWith.
        * unfold lineKey. cbn [fst snd]. rewrite keyText_mapKey.
          eapply startsWith_trans; [exact Hprefix | apply startsWith_firstSegment].
        * intros E. unfold ret in E. injection E as <-. rewrite Hw. now eexists. }
  destruct Hsome as (v & ->).
  exists s, v. split; [reflexivity|]. split; [exact Hrun|].
  destruct (Hr v eq_refl) as (key & Hkin & Hkey). cbn [linePolygonMap s] in Hkin.
  apply indexAll_entries in Hkin.
  destruct Hkin as [[] | ([pg' line'] & _ & -> & Hentry')].
  apply entryOf_some in Hentry'. destruct Hentry' as (Hpage & _ & Hlen').
  apply page_of_key in Hkey. simpl in *. split; [congruence | assumption].
Qed.

(** X5. For a page number that no line of the document is on, and so for
    every page number when the result has no pages, the lookup returns
    null for every content. *)
Theorem lookup_on_page_without_lines
        (result : AnalyzeResult) (content : string) (n : nat) :
  (forall pg line,
      In (pg, line) (linesOf (orArray (pages result))) -> page_pageNumber pg <> n) ->
  exists s,
    localsAfterBuild result = Normal s
    /\ findLinePolygon content n s = Normal (None, s).
Proof.
  intros Hno.
  unfold localsAfterBuild. rewrite buildLinePolygonMap_run.
  eexists. split; [reflexivity|].
  destruct (findLinePolygon_result content n
    {| items := items initialLocals; fullText := fullText initialLocals;
       linePolygonMap := indexAll (linesOf (orArray (pages result)))
                                  (linePolygonMap initialLocals) |})
    as (r & Hrun & Hr).
  rewrite Hrun. destruct r as [v|]; [|reflexivity].
  exfalso. destruct (Hr v eq_refl) as (key & Hin & Hkey). simpl in Hin.
  apply indexAll_entries in Hin.
  destruct Hin as [[] | ([pg line] & Hpl & -> & _)].
  apply page_of_key in Hkey. now apply (Hno pg line Hpl).
Qed.

(** ** What the lookup returns is a prefix of the content *)

Lemma startsWith_empty (t : string) : JsString.startsWith t EmptyString = true.
Proof. now destruct t. Qed.

Lemma trimEnd_app_prefix (u w : string) :
  JsString.startsWith (JsString.trimEnd (u ++ w)) (JsString.trimEnd u) = true.
Proof.
  induction u as [|c u IH]; [apply startsWith_empty|]. simpl.
  destruct (JsString.trimEnd u) as [|a t].
  - destruct (JsString.isWhiteSpace c); [apply startsWith_empty|].
    destruct (JsString.trimEnd (u ++ w)); simpl; now rewrite Ascii.eqb_refl.
  - destruct (JsString.trimEnd (u ++ w)) as [|b t']; [discriminate|].
    simpl. rewrite Ascii.eqb_refl. exact IH.
Qed.

Lemma trimStart_app (u w : string) :
  JsString.trimStart u <> EmptyString ->
  JsString.trimStart (u ++ w) = JsString.trimStart u ++ w.
Proof.
  induction u as [|c u IH]; simpl; [contradiction|].
  destruct (JsString.isWhiteSpace c); [exact IH | reflexivity].
Qed.

Lemma firstSegment_app (sep : ascii) (t : string) :
  exists w, t = firstSegment sep t ++ w.
Proof.
  induction t as [|c t [w IH]]; simpl.
  - now exists EmptyString.
  - destruct (Ascii.eqb c sep).
    + now eexists.
    + exists w. simpl. now rewrite <- IH.
Qed.

(** The trimmed first line of a content is a prefix of the trimmed
    content. *)
Lemma trim_firstSegment_prefix (sep : ascii) (content : string) :
  JsString.startsWith (JsString.trim content)
                      (JsString.trim (firstSegment sep content)) = true.
Proof.
  destruct (firstSegment_app sep content) as [w Hw].
  unfold JsString.trim. rewrite Hw at 1.
  destruct (JsString.trimStart (firstSegment sep content)) as [|c t] eqn:E.
  - apply startsWith_empty.
  - rewrite trimStart_app by (rewrite E; discriminate). rewrite E.
    apply trimEnd_app_prefix.
Qed.

(** What the lookup returns is stored under the key of the content, under
    the key of its first line, or under a key the scan accepts. *)
Lemma findLinePolygon_cases (content : string) (n : nat) (s : Locals) :
  exists r,
    findLinePolygon content n s = Normal (r, s)
    /\ (forall v, r = Some v ->
         exists key,
           In (key, v) (linePolygonMap s)
           /\ (key = mapKey n (JsString.trim content)
               \/ key = mapKey n (JsString.trim (firstSegment JsString.LF content))
               \/ (JsString.startsWith key (JsString.natToString n ++ ":") = true
                   /\ JsString.startsWith (JsString.trim content) (keyText key) = true))).
Proof.
  unfold findLinePolygon, map_has. erewrite bind_normal by reflexivity.
  destruct (map_get (mapKey n (JsString.trim content)) (linePolygonMap s))
    as [v|] eqn:Eexact.
  - eexists. split; [reflexivity|]. intros w H. injection H as <-.
    eexists. split; [apply map_get_in; eassumption | now left].
  - destruct (split_head JsString.LF content) as [rest Hsplit].
    rewrite Hsplit. simpl nth_error. erewrite bind_normal by reflexivity.
    destruct (map_get (mapKey n (JsString.trim (firstSegment JsString.LF content)))
                      (linePolygonMap s)) as [v|] eqn:Efirst.
    + eexists. split; [reflexivity|]. intros w H. injection H as <-.
      eexists. split; [apply map_get_in; eassumption | right; now left].
    + eexists. split; [reflexivity|]. intros w H.
      induction (linePolygonMap s) as [|[key value] m IH]; simpl in H; [discriminate|].
      destruct (JsString.startsWith key _) eqn:Ekey; simpl in H.
      * destruct (JsString.startsWith (JsString.trim content) (keyText key)) eqn:Etext.
        -- injection H as ->. exists key. split; [now left|]. right. right. now split.
        -- simpl in Eexact, Efirst.
           destruct (String.eqb key _) in Eexact; [discriminate|].
           destruct (String.eqb key _) in Efirst; [discriminate|].
           destruct (IH Eexact Efirst H) as (k & Hin & Hk).
           exists k. split; [now right | exact Hk].
      * simpl in Eexact, Efirst.
        destruct (String.eqb key _) in Eexact; [discriminate|].
        destruct (String.eqb key _) in Efirst; [discriminate|].
        destruct (IH Eexact Efirst H) as (k & Hin & Hk).
        exists k. split; [now right | exact Hk].
Qed.

(** X19. When no line of the page asked for holds a colon in its trimmed
    text, whatever the lookup returns is the geometry of a line of that
    page whose trimmed text is a prefix of the trimmed content. *)
Theorem lookup_text_is_a_prefix
        (result : AnalyzeResult) (content : string) (n : nat) :
  (forall pg line,
      In (pg, line) (linesOf (orArray (pages result))) ->
      page_pageNumber pg = n ->
      occurs ":" (JsString.trim (line_content line)) = false) ->
  exists s r,
    localsAfterBuild result = Normal s
    /\ findLinePolygon content n s = Normal (r, s)
    /\ (forall v, r = Some v ->
         exists pg line,
           In (pg, line) (linesOf (orArray (pages result)))
           /\ page_pageNumber pg = n
           /\ flattenPolygon (line_polygon line) = Some (lp_polygon v)
           /\ JsString.startsWith (JsString.trim content)
                                  (JsString.trim (line_content line)) = true).
Proof.
  intros Hfree.
  unfold localsAfterBuild. rewrite buildLinePolygonMap_run.
  cbn [items fullText linePolygonMap initialLocals].
  set (s := {| items := []; fullText := EmptyString;
               linePolygonMap := indexAll (linesOf (orArray (pages result))) [] |}).
  destruct (findLinePolygon_cases content n s) as (r & Hrun & Hr).
  exists s, r. split; [reflexivity|]. split; [exact Hrun|].
  intros v Hv. destruct (Hr v Hv) as (key & Hin & Hcase).
  cbn [linePolygonMap s] in Hin. apply indexAll_entries in Hin.
  destruct Hin as [[] | ([pg line] & Hpl & -> & Hentry)].
  apply entryOf_some in Hentry. destruct Hentry as (_ & Hflat & _).
  unfold lineKey in Hcase. cbn [fst snd] in *.
  exists pg, line. split; [exact Hpl|].
  destruct Hcase as [E | [E | [Hkey Htext]]].
  - apply mapKey_inj in E. destruct E as [Hn Ht].
    split; [exact Hn|]. split; [exact Hflat|]. rewrite Ht. apply startsWith_refl.
  - apply mapKey_inj in E. destruct E as [Hn Ht].
    split; [exact Hn|]. split; [exact Hflat|]. rewrite Ht.
    apply trim_firstSegment_prefix.
  - apply page_of_key in Hkey.
    split; [exact Hkey|]. split; [exact Hflat|].
    rewrite keyText_mapKey in Htext.
    now rewrite firstSegment_absent in Htext by (now apply (Hfree pg line)).
Qed.

(** ** The handlers *)

Lemma analyzeHandler_resolved (f : UploadedFile) (result : AnalyzeResult)
      (context : string) :
  analyzeHandler (Some f) (Resolved result) context =
  ({| status := 200;
      json := AnalysisJson (originalname f) ("/uploads/" ++ filename f)
                           {| sc_items := itemsOf result;
                              sc_fullText := fullTextOf result;
                              sc_pageCount := pageCountOf result |} |},
   fullTextOf result).
Proof. unfold analyzeHandler. now rewrite extractStructuredContent_run. Qed.

Lemma handle_not_analysed (req : Request) (context : string) :
  analysed req = false -> snd (handle req context) = context.
Proof.
  destruct req as [[f|] [result|message]|body create]; simpl; try reflexivity.
  discriminate.
Qed.

Lemma serve_cons (req : Request) (reqs : list Request) (context : string) :
  serve (req :: reqs) context =
  (fst (handle req context) :: fst (serve reqs (snd (handle req context))),
   snd (serve reqs (snd (handle req context)))).
Proof.
  simpl. destruct (handle req context) as [res c]. simpl.
  now destruct (serve reqs c).
Qed.

Lemma serve_without_analysis (reqs : list Request) :
  forall context,
    Forall (fun q => analysed q = false) reqs ->
    snd (serve reqs context) = context.
Proof.
  induction reqs as [|req reqs IH]; intros context H; [reflexivity|].
  inversion H as [|? ? Hreq Hreqs]; subst.
  rewrite serve_cons. simpl. rewrite (handle_not_analysed _ _ Hreq). now apply IH.
Qed.

Lemma serve_app_context (before after : list Request) :
  forall context,
    snd (serve (before ++ after) context) = snd (serve after (snd (serve before context))).
Proof.
  induction before as [|req before IH]; intros context; [reflexivity|].
  rewrite <- app_comm_cons, !serve_cons. simpl. apply IH.
Qed.

(** X16. After any sequence of requests the context is the [fullText]
    extracted by the last analysis request that carried a file and whose
    analysis resolved, whatever came before it and whatever failed or was
    asked after it; without such a request the context is what it was. *)
Theorem context_is_text_of_last_analysis :
  (forall (before after : list Request) (f : UploadedFile) (result : AnalyzeResult)
          (context : string),
      Forall (fun q => analysed q = false) after ->
      exists out,
        extractStructuredContent result = Normal out
        /\ snd (serve (before ++ PostAnalyze (Some f) (Resolved result) :: after) context)
           = sc_fullText out)
  /\ (forall (reqs : list Request) (context : string),
         Forall (fun q => analysed q = false) reqs ->
         snd (serve reqs context) = context).
Proof.
  split.
  - intros before after f result context Hafter.
    eexists. split; [apply extractStructuredContent_run|].
    rewrite serve_app_context, serve_cons. cbn [snd sc_fullText].
    rewrite serve_without_analysis by assumption.
    cbn [handle]. now rewrite analyzeHandler_resolved.
  - intros reqs context. apply serve_without_analysis.
Qed.

Lemma queryHandler_without_context (body : option (option string))
      (create : ChatCompletions) :
  status (queryHandler body create EmptyString) <> 200.
Proof.
  unfold queryHandler. destruct body as [question|]; [|discriminate].
  destruct (falsyString question); discriminate.
Qed.

(** X17. From startup, as long as no analysis request both carries a file
    and has its analysis resolve, no request is answered with status 200:
    every question is turned down. *)
Theorem no_answer_before_an_analysis (reqs : list Request) :
  Forall (fun q => analysed q = false) reqs ->
  Forall (fun res => status res <> 200) (fst (serve reqs startupContext)).
Proof.
  unfold startupContext.
  induction reqs as [|req reqs IH]; intros H; [constructor|].
  inversion H as [|? ? Hreq Hreqs]; subst.
  rewrite serve_cons. simpl fst. rewrite (handle_not_analysed _ _ Hreq).
  constructor; [|now apply IH].
  destruct req as [[f|] [result|message]|body create]; simpl; try discriminate.
  apply queryHandler_without_context.
Qed.

(** X18. Analysis, then a question. When the extraction returned no item
    the question is turned down with [No document analyzed yet], although
    the analysis was answered with 200; when it returned an item the
    completion service receives the system prompt and the user prompt built
    from the extracted text and the question, and its first choice is the
    answer. *)
Theorem question_after_analysis
        (f : UploadedFile) (result : AnalyzeResult) (context question : string)
        (create : ChatCompletions) :
  question <> EmptyString ->
  exists out,
    extractStructuredContent result = Normal out
    /\ (sc_items out = [] ->
        queryHandler (Some (Some question)) create
                     (snd (analyzeHandler (Some f) (Resolved result) context))
        = {| status := 400;
             json := ErrorJson "No document analyzed yet. Please upload a document first."
                               None |})
    /\ (sc_items out <> [] ->
        forall answer others,
          create [ {| chat_role := "system"; chat_content := systemPrompt |};
                   {| chat_role := "user";
                      chat_content := userPrompt (sc_fullText out) question |} ]
          = Resolved (answer :: others) ->
          queryHandler (Some (Some question)) create
                       (snd (analyzeHandler (Some f) (Resolved result) context))
          = {| status := 200; json := AnswerJson answer |}).
Proof.
  intros Hq. eexists. split; [apply extractStructuredContent_run|].
  rewrite analyzeHandler_resolved. cbn [snd sc_items sc_fullText].
  apply String.eqb_neq in Hq.
  unfold queryHandler, falsyString, orString. rewrite Hq.
  split.
  - intros Hnone. apply fullTextOf_empty in Hnone. now rewrite Hnone.
  - intros Hsome answer others Hcreate.
    destruct (String.eqb_spec (fullTextOf result) EmptyString) as [E|_].
    + apply fullTextOf_empty in E. contradiction.
    + now rewrite Hcreate.
Qed.

(** ** When the extraction throws *)

Lemma forallb_false {A} (f : A -> bool) (l : list A) :
  forallb f l = false -> exists a, In a l /\ f a = false.
Proof.
  induction l as [|a l IH]; simpl; [discriminate|].
  destruct (f a) eqn:E; simpl.
  - intros H. destruct (IH H) as (b & Hin & Hb). exists b. split; [now right | exact Hb].
  - intros _. exists a. split; [now left | exact E].
Qed.

Lemma rawForEachFrom_runs {A} (arr : list A) (body : A -> nat -> rawjs unit) :
  (forall a, In a arr -> forall i s, exists s', body a i s = Normal (tt, s')) ->
  forall i s, exists s', rawForEachFrom i arr body s = Normal (tt, s').
Proof.
  induction arr as [|a arr IH]; intros H i s; simpl.
  - now eexists.
  - unfold rawbind. destruct (H a (or_introl eq_refl) i s) as [s' ->].
    apply IH. intros b Hb. apply H. now right.
Qed.

Lemma rawForEachFrom_throws {A} (arr : list A) (body : A -> nat -> rawjs unit) :
  (exists a, In a arr /\ forall i s, body a i s = Throw TypeError) ->
  forall i s, rawForEachFrom i arr body s = Throw TypeError.
Proof.
  induction arr as [|a arr IH]; intros (b & Hin & Hb) i s; [contradiction|].
  simpl. unfold rawbind. destruct Hin as [-> | Hin].
  - now rewrite Hb.
  - destruct (body a i s) as [[[] s']|[]]; [|reflexivity].
    apply IH. now exists b.
Qed.

Lemma flatMapXY_runs (entries : list JsValue) :
  forallb defined entries = true -> exists flat, flatMapXY entries = Normal flat.
Proof.
  induction entries as [|v entries IH]; simpl; [now eexists|].
  intros H. apply andb_prop in H. destruct H as [Hv H].
  destruct (IH H) as [flat ->].
  destruct v; try discriminate; now eexists.
Qed.

Lemma flatMapXY_throws (entries : list JsValue) :
  forallb defined entries = false -> flatMapXY entries = Throw TypeError.
Proof.
  induction entries as [|v entries IH]; simpl; [discriminate|].
  destruct v; simpl; try reflexivity; intros H; now rewrite (IH H).
Qed.

(** [flattenPolygon] returns for the polygons that [flattens] accepts and
    throws for the others. *)
Lemma rawFlattenPolygon_runs (polygon : RawPolygon) :
  flattens polygon = true -> exists flat, rawFlattenPolygon polygon = Normal flat.
Proof.
  destruct polygon as [| |[|[| |n|[| |px|] py text] rest]]; simpl;
    try (intros _; now eexists).
  intros H. destruct (flatMapXY_runs _ H) as [flat ->]. now eexists.
Qed.

Lemma rawFlattenPolygon_throws (polygon : RawPolygon) :
  flattens polygon = false -> rawFlattenPolygon polygon = Throw TypeError.
Proof.
  destruct polygon as [| |[|[| |n|[| |px|] py text] rest]]; simpl; try discriminate.
  intros H. now rewrite (flatMapXY_throws _ H).
Qed.

Lemma rawIndexLine_runs (pg : RawPage) (line : RawLine) :
  lineOk line = true ->
  forall i s, exists s', rawIndexLine pg line i s = Normal (tt, s').
Proof.
  unfold lineOk. intros H i s. apply andb_prop in H. destruct H as [Hc Hp].
  destruct (rawFlattenPolygon_runs _ Hp) as [flat Hflat].
  unfold rawIndexLine, rawbind, rawcall, rawmember, rawget, setRawLinePolygon, rawput, rawret.
  destruct (rawline_content line) as [text|]; [|discriminate].
  rewrite Hflat. destruct flat as [p|]; [|now eexists].
  destruct (_ && _); now eexists.
Qed.

Lemma rawIndexLine_throws (pg : RawPage) (line : RawLine) :
  lineOk line = false ->
  forall i s, rawIndexLine pg line i s = Throw TypeError.
Proof.
  unfold lineOk. intros H i s.
  unfold rawIndexLine, rawbind, rawcall, rawmember, rawret.
  destruct (rawline_content line) as [text|]; [|reflexivity].
  simpl in H. now rewrite (rawFlattenPolygon_throws _ H).
Qed.

Lemma rawLineCallback_runs (pg : RawPage) (pageIndex : nat) (line : RawLine) :
  lineOk line = true ->
  forall i s, exists s', rawLineCallback pg pageIndex line i s = Normal (tt, s').
Proof.
  unfold lineOk. intros H i s. apply andb_prop in H. destruct H as [Hc Hp].
  destruct (rawFlattenPolygon_runs _ Hp) as [flat Hflat].
  unfold rawLineCallback, rawbind, rawcall, rawmember, rawget, setRawFullText,
    pushRawItem, rawput, rawret.
  destruct (rawline_content line) as [text|]; [|discriminate].
  rewrite Hflat. now eexists.
Qed.

(** The two loops over the lines of a page, at 172-183 and at 268-300. *)
Lemma page_lines_loop_runs (pg : RawPage) (body : RawLine -> nat -> rawjs unit) :
  (forall line, lineOk line = true ->
                forall i s, exists s', body line i s = Normal (tt, s')) ->
  pageOk pg = true ->
  forall s, exists s',
    (if truthy (rawpage_lines pg)
     then ls <-- rawmember (rawpage_lines pg) ;; rawForEach ls body
     else rawret tt) s = Normal (tt, s').
Proof.
  intros Hbody Hpg s. unfold pageOk in Hpg.
  destruct (rawpage_lines pg) as [ls|]; simpl; [|now eexists].
  unfold rawbind, rawret, rawForEach. apply rawForEachFrom_runs.
  intros line Hin. apply Hbody.
  now apply (proj1 (forallb_forall lineOk ls) Hpg).
Qed.

Lemma rawBuildLinePolygonMap_runs (result : RawResult) :
  forallb pageOk (orArray (raw_pages result)) = true ->
  forall s, exists s', rawBuildLinePolygonMap result s = Normal (tt, s').
Proof.
  intros H s. unfold rawBuildLinePolygonMap.
  destruct (raw_pages result) as [pgs|]; simpl; [|now eexists].
  unfold rawbind at 1. simpl. unfold rawForEach. apply rawForEachFrom_runs.
  intros pg Hin i s0. apply page_lines_loop_runs.
  - intros line. apply rawIndexLine_runs.
  - now apply (proj1 (forallb_forall pageOk pgs) H).
Qed.

Lemma rawBuildLinePolygonMap_throws (result : RawResult) :
  forallb pageOk (orArray (raw_pages result)) = false ->
  forall s, rawBuildLinePolygonMap result s = Throw TypeError.
Proof.
  intros H s. unfold rawBuildLinePolygonMap.
  destruct (raw_pages result) as [pgs|]; simpl in *; [|discriminate].
  unfold rawbind at 1. simpl. unfold rawForEach. apply rawForEachFrom_throws.
  apply forallb_false in H. destruct H as (pg & Hin & Hpg).
  exists pg. split; [exact Hin|]. intros i s0. unfold pageOk in Hpg.
  destruct (rawpage_lines pg) as [ls|]; simpl in *; [|discriminate].
  unfold rawbind at 1. simpl. unfold rawForEach. apply rawForEachFrom_throws.
  apply forallb_false in Hpg. destruct Hpg as (line & Hl & Hline).
  exists line. split; [exact Hl|]. now apply rawIndexLine_throws.
Qed.

Lemma rawLinePath_runs (result : RawResult) :
  forallb pageOk (orArray (raw_pages result)) = true ->
  forall s, exists s', rawLinePath result s = Normal (tt, s').
Proof.
  intros H s. unfold rawLinePath. unfold rawbind at 1, rawget.
  destruct (_ && _) eqn:E; [|now eexists].
  destruct (raw_pages result) as [pgs|]; simpl in *;
    [|apply andb_prop in E; destruct E; discriminate].
  unfold rawbind at 1. simpl. unfold rawForEach. apply rawForEachFrom_runs.
  intros pg Hin i s0. apply page_lines_loop_runs.
  - intros line. apply rawLineCallback_runs.
  - now apply (proj1 (forallb_forall pageOk pgs) H).
Qed.

Lemma rawRegionSource_runs (region : option RawRegion) :
  regionOk region = true -> exists o, rawRegionSource region = Normal o.
Proof.
  destruct region as [r|]; [|discriminate]. unfold regionOk, rawRegionSource.
  intros H. destruct (rawFlattenPolygon_runs _ H) as [[p|] ->]; [|now eexists].
  destruct (8 <=? length p)%nat; now eexists.
Qed.

Lemma rawRegionSource_throws (region : option RawRegion) :
  regionOk region = false -> rawRegionSource region = Throw TypeError.
Proof.
  destruct region as [r|]; simpl; [|reflexivity].
  intros H. now rewrite (rawFlattenPolygon_throws _ H).
Qed.

Lemma mapCompletion_runs (regions : list (option RawRegion)) :
  forallb regionOk regions = true ->
  exists sources, mapCompletion rawRegionSource regions = Normal sources.
Proof.
  induction regions as [|r regions IH]; simpl; [now eexists|].
  intros H. apply andb_prop in H. destruct H as [Hr H].
  destruct (rawRegionSource_runs _ Hr) as [o ->].
  destruct (IH H) as [sources ->]. now eexists.
Qed.

Lemma mapCompletion_throws (regions : list (option RawRegion)) :
  forallb regionOk regions = false ->
  mapCompletion rawRegionSource regions = Throw TypeError.
Proof.
  induction regions as [|r regions IH]; simpl; [discriminate|].
  destruct (regionOk r) eqn:Er; simpl.
  - intros H. destruct (rawRegionSource_runs _ Er) as [o ->]. now rewrite (IH H).
  - intros _. now rewrite (rawRegionSource_throws _ Er).
Qed.

Lemma rawFirstRegionPolygon_flattens (par : RawParagraph) :
  forallb regionOk (orArray (rawpar_boundingRegions par)) = true ->
  flattens (rawFirstRegionPolygon par) = true.
Proof.
  unfold rawFirstRegionPolygon, rawFirstRegion.
  destruct (rawpar_boundingRegions par) as [[|[r|] rs]|]; simpl; try reflexivity.
  intros H. apply andb_prop in H. now destruct H.
Qed.

Lemma rawParagraphCallback_runs (par : RawParagraph) :
  paragraphOk par = true ->
  forall i s, exists s', rawParagraphCallback par i s = Normal (tt, s').
Proof.
  unfold paragraphOk. intros H i s. apply andb_prop in H. destruct H as [Hc Hr].
  destruct (rawFlattenPolygon_runs _ (rawFirstRegionPolygon_flattens _ Hr))
    as [flat Hflat].
  destruct (mapCompletion_runs _ Hr) as [sources Hmap].
  unfold rawParagraphCallback, rawbind, rawcall, rawmember, rawget, setRawFullText,
    pushRawItem, rawput, rawret.
  rewrite Hflat.
  destruct (isHeadingRole _); simpl in Hc.
  - destruct (rawpar_boundingRegions par) as [rs|]; simpl in *; [|now eexists].
    destruct (0 <? length rs)%nat; [|now eexists]. rewrite Hmap. now eexists.
  - destruct (rawpar_content par) as [text|]; [|discriminate].
    destruct (rawpar_boundingRegions par) as [rs|]; simpl in *; [|now eexists].
    destruct (0 <? length rs)%nat; [|now eexists]. rewrite Hmap. now eexists.
Qed.

Lemma rawParagraphCallback_throws (par : RawParagraph) :
  paragraphOk par = false ->
  forall i s, rawParagraphCallback par i s = Throw TypeError.
Proof.
  unfold paragraphOk. intros H i s.
  unfold rawParagraphCallback, rawbind, rawcall, rawmember, rawget, setRawFullText,
    pushRawItem, rawput, rawret.
  destruct (isHeadingRole _); simpl in H.
  - destruct (rawFlattenPolygon (rawFirstRegionPolygon par)) as [flat|[]];
      [|reflexivity].
    destruct (rawpar_boundingRegions par) as [rs|]; simpl in *; [|discriminate].
    destruct rs as [|r rs]; [discriminate|]. simpl Nat.ltb. cbv iota.
    now rewrite (mapCompletion_throws _ H).
  - destruct (rawpar_content par) as [text|]; [|reflexivity]. simpl in H.
    destruct (rawFlattenPolygon (rawFirstRegionPolygon par)) as [flat|[]];
      [|reflexivity].
    destruct (rawpar_boundingRegions par) as [rs|]; simpl in *; [|discriminate].
    destruct rs as [|r rs]; [discriminate|]. simpl Nat.ltb. cbv iota.
    now rewrite (mapCompletion_throws _ H).
Qed.

Lemma rawParagraphPath_runs (result : RawResult) :
  forallb paragraphOk (orArray (raw_paragraphs result)) = true ->
  forall s, exists s', rawParagraphPath result s = Normal (tt, s').
Proof.
  intros H s. unfold rawParagraphPath.
  destruct (raw_paragraphs result) as [ps|]; simpl; [|now eexists].
  unfold rawbind at 1. simpl. unfold rawForEach. apply rawForEachFrom_runs.
  intros par Hin. apply rawParagraphCallback_runs.
  now apply (proj1 (forallb_forall paragraphOk ps) H).
Qed.

Lemma rawParagraphPath_throws (result : RawResult) :
  forallb paragraphOk (orArray (raw_paragraphs result)) = false ->
  forall s, rawParagraphPath result s = Throw TypeError.
Proof.
  intros H s. unfold rawParagraphPath.
  destruct (raw_paragraphs result) as [ps|]; simpl in *; [|discriminate].
  unfold rawbind at 1. simpl. unfold rawForEach. apply rawForEachFrom_throws.
  apply forallb_false in H. destruct H as (par & Hin & Hpar).
  exists par. split; [exact Hin|]. now apply rawParagraphCallback_throws.
Qed.

(** C8, as the code has it. On a raw result the extraction returns, with
    the number of pages as its page count, whatever is absent (pages, lines,
    paragraphs, role, bounding regions, polygons) and whatever shape or
    length the polygons have, provided that every line has a content, every
    paragraph without a heading role has one, no entry of [boundingRegions]
    is null, and no polygon array of a line or region whose first entry is
    an object with a numeric [x] holds an undefined or null entry. On
    every other raw result it throws a TypeError. *)
Theorem raw_extraction_throws_only_on_malformed (result : RawResult) :
  (wellFormed result = true ->
   exists out,
     rawExtractStructuredContent result = Normal out
     /\ rawsc_pageCount out = length (orArray (raw_pages result)))
  /\ (wellFormed result = false ->
      rawExtractStructuredContent result = Throw TypeError).
Proof.
  unfold wellFormed, rawExtractStructuredContent, rawBody. split; intros H.
  - apply andb_prop in H. destruct H as [Hpages Hpars].
    unfold rawbind at 1.
    destruct (rawBuildLinePolygonMap_runs _ Hpages rawInitialLocals) as [s1 ->].
    unfold rawbind at 1.
    destruct (rawParagraphPath_runs _ Hpars s1) as [s2 ->].
    unfold rawbind at 1.
    destruct (rawLinePath_runs _ Hpages s2) as [s3 ->].
    eexists. split; [reflexivity|]. simpl.
    destruct (raw_pages result) as [[|pg pgs]|]; reflexivity.
  - unfold rawbind at 1.
    destruct (forallb pageOk (orArray (raw_pages result))) eqn:Hpages.
    + simpl in H.
      destruct (rawBuildLinePolygonMap_runs _ Hpages rawInitialLocals) as [s1 ->].
      unfold rawbind at 1. now rewrite (rawParagraphPath_throws _ H).
    + now rewrite (rawBuildLinePolygonMap_throws _ Hpages).
Qed.

(** ** The checked extraction inside the raw one

    On a checked result seen as a raw one, the raw extraction computes what
    the checked extraction computes. *)

Lemma flatMapXY_points (pts : list Point2D) :
  flatMapXY (map (fun pt => JsObject (JsNumber (x pt)) (JsNumber (y pt))
                                     "[object Object]") pts)
  = Normal (map JsNumber (flat_map (fun pt => [x pt; y pt]) pts)).
Proof. induction pts as [|pt pts IH]; simpl; [reflexivity | now rewrite IH]. Qed.

Lemma rawFlattenPolygon_of (polygon : Polygon) :
  rawFlattenPolygon (rawPolygonOf polygon)
  = Normal (option_map (map JsNumber) (flattenPolygon polygon)).
Proof.
  destruct polygon as [| |[|n ns]|[|pt pts]|]; try reflexivity.
  pose proof (flatMapXY_points (pt :: pts)) as H.
  unfold rawPolygonOf, flattenPolygon, rawFlattenPolygon.
  cbn [map] in *. rewrite H. reflexivity.
Qed.

Lemma rawSourceString_of (pageNumber : nat) (p : list number) :
  rawSourceString pageNumber (map JsNumber p) = sourceString pageNumber p.
Proof.
  unfold rawSourceString, sourceString, rawCoordinate, coordinate.
  rewrite !nth_error_map.
  now destruct (nth_error p 0), (nth_error p 1), (nth_error p 2), (nth_error p 3),
    (nth_error p 4), (nth_error p 5), (nth_error p 6), (nth_error p 7).
Qed.

Lemma rawmap_has_of (key : string) (m : Map) :
  rawmap_has key (map (fun kv => (fst kv, rawLinePolygonOf (snd kv))) m) = map_has key m.
Proof.
  unfold map_has. induction m as [|[k v] m IH]; simpl; [reflexivity|].
  destruct (String.eqb k key); simpl; [reflexivity | exact IH].
Qed.

Lemma rawmap_set_of (key : string) (v : LinePolygon) (m : Map) :
  rawmap_set key (rawLinePolygonOf v)
             (map (fun kv => (fst kv, rawLinePolygonOf (snd kv))) m)
  = map (fun kv => (fst kv, rawLinePolygonOf (snd kv))) (map_set key v m).
Proof.
  induction m as [|[k w] m IH]; simpl; [reflexivity|].
  destruct (String.eqb k key); simpl; [reflexivity | now rewrite IH].
Qed.

Lemma rawIndexLine_of (pg : Page) (line : Line) (i : nat) (s : Locals) :
  rawIndexLine (rawPageOf pg) (rawLineOf line) i (rawLocalsOf s)
  = Normal (tt, rawLocalsOf {| items := items s; fullText := fullText s;
                               linePolygonMap := addLine (linePolygonMap s) (pg, line) |}).
Proof.
  unfold rawIndexLine, rawbind, rawcall, rawmember, rawget, setRawLinePolygon, rawput,
    rawret, addLine, indexable, lineKey.
  cbn [rawline_content rawline_polygon rawLineOf rawpage_pageNumber rawPageOf fst snd].
  rewrite rawFlattenPolygon_of.
  destruct (flattenPolygon (line_polygon line)) as [p|]; cbn [option_map].
  - cbn [raw_linePolygonMap rawLocalsOf]. rewrite rawmap_has_of, length_map.
    destruct (map_has _ (linePolygonMap s)); cbn [negb andb].
    + destruct (8 <=? length p)%nat; now destruct s.
    + destruct (8 <=? length p)%nat; [|now destruct s].
      unfold rawLocalsOf. cbn [items fullText linePolygonMap raw_itemsVar raw_fullTextVar].
      now rewrite <- rawmap_set_of.
  - now destruct s.
Qed.

Lemma forEachFrom_of {A B} (f : A -> B) (body : A -> nat -> js unit)
      (rbody : B -> nat -> rawjs unit) (arr : list A) :
  (forall a i s s', body a i s = Normal (tt, s') ->
                    rbody (f a) i (rawLocalsOf s) = Normal (tt, rawLocalsOf s')) ->
  forall i s s',
    forEachFrom i arr body s = Normal (tt, s') ->
    rawForEachFrom i (map f arr) rbody (rawLocalsOf s) = Normal (tt, rawLocalsOf s').
Proof.
  intros Hbody. induction arr as [|a arr IH]; intros i s s'; simpl.
  - unfold ret, rawret. intros H. now injection H as <-.
  - unfold bind, rawbind.
    destruct (body a i s) as [[[] s1]|e] eqn:E; [|discriminate].
    rewrite (Hbody _ _ _ _ E). apply IH.
Qed.

Lemma mapCompletion_of (rs : list BoundingRegion) :
  mapCompletion rawRegionSource (map rawRegionOf rs) = Normal (map regionSource rs).
Proof.
  induction rs as [|r rs IH]; [reflexivity|].
  cbn [map mapCompletion]. rewrite IH.
  unfold regionSource, rawRegionSource, rawRegionOf.
  cbn [rawregion_polygon rawregion_pageNumber]. rewrite rawFlattenPolygon_of.
  destruct (flattenPolygon (region_polygon r)) as [p|]; cbn [option_map]; [|reflexivity].
  rewrite length_map, rawSourceString_of.
  now destruct (8 <=? length p)%nat.
Qed.

Lemma orArray_of (flat : option (list number)) :
  orArray (option_map (map JsNumber) flat) = map JsNumber (orArray flat).
Proof. now destruct flat. Qed.

Lemma rawParagraphCallback_of (par : Paragraph) (i : nat) (s : Locals) :
  rawParagraphCallback (rawParagraphOf par) i (rawLocalsOf s)
  = Normal (tt, rawLocalsOf
                  {| items := items s ++ [paragraphItem par i];
                     fullText := fullText s ++ par_content par ++ nl ++ nl;
                     linePolygonMap := linePolygonMap s |}).
Proof.
  destruct par as [c r brs].
  assert (Hflat : rawFlattenPolygon
                    (rawFirstRegionPolygon
                       (rawParagraphOf {| par_content := c; par_role := r;
                                          par_boundingRegions := brs |}))
                  = Normal (option_map (map JsNumber)
                              (flattenPolygon
                                 (firstRegionPolygon
                                    {| par_content := c; par_role := r;
                                       par_boundingRegions := brs |})))).
  { destruct brs as [[|b brs]|]; try reflexivity. apply rawFlattenPolygon_of. }
  assert (Hpage : option_map rawregion_pageNumber
                    (rawFirstRegion
                       (rawParagraphOf {| par_content := c; par_role := r;
                                          par_boundingRegions := brs |}))
                  = firstRegionPage {| par_content := c; par_role := r;
                                       par_boundingRegions := brs |}).
  { now destruct brs as [[|b brs]|]. }
  unfold rawParagraphCallback, setRawFullText, pushRawItem.
  unfold rawbind, rawcall, rawmember, rawget, rawput, rawret.
  rewrite Hflat, Hpage, orArray_of.
  unfold rawLocalsOf, paragraphItem, isHeading.
  cbn [items fullText linePolygonMap raw_itemsVar raw_fullTextVar raw_linePolygonMap
       par_content par_role par_boundingRegions
       rawpar_content rawpar_role rawpar_boundingRegions rawParagraphOf contentText].
  rewrite map_app. cbn [map rawItemOf id type content page boundingBox source].
  destruct (isHeadingRole (orString r "paragraph")); cbn [orb];
    destruct brs as [[|b brs]|]; cbn [option_map truthy]; try reflexivity.
  - cbn [map length Nat.ltb Nat.leb].
    change (rawRegionOf b :: map rawRegionOf brs) with (map rawRegionOf (b :: brs)).
    now rewrite mapCompletion_of.
  - cbn [map length Nat.ltb Nat.leb].
    change (rawRegionOf b :: map rawRegionOf brs) with (map rawRegionOf (b :: brs)).
    now rewrite mapCompletion_of.
Qed.

Lemma rawLineCallback_of (pg : Page) (pageIndex : nat) (line : Line) (i : nat)
      (s : Locals) :
  rawLineCallback (rawPageOf pg) pageIndex (rawLineOf line) i (rawLocalsOf s)
  = Normal (tt, rawLocalsOf
                  {| items := items s ++ [lineItem pg pageIndex line i];
                     fullText := fullText s ++ line_content line ++ nl;
                     linePolygonMap := linePolygonMap s |}).
Proof.
  unfold rawLineCallback, setRawFullText, pushRawItem.
  unfold rawbind, rawcall, rawmember, rawget, rawput, rawret.
  cbn [rawline_content rawline_polygon rawLineOf rawpage_pageNumber rawPageOf contentText].
  rewrite rawFlattenPolygon_of, orArray_of.
  unfold rawLocalsOf, lineItem, regionSource, lineId.
  cbn [items fullText linePolygonMap raw_itemsVar raw_fullTextVar raw_linePolygonMap
       region_polygon region_pageNumber].
  rewrite map_app. cbn [map rawItemOf id type content page boundingBox source].
  destruct (flattenPolygon (line_polygon line)) as [p|]; cbn [option_map]; [|reflexivity].
  rewrite length_map, rawSourceString_of. reflexivity.
Qed.

Lemma rawBuildLinePolygonMap_of (result : AnalyzeResult) (s s' : Locals) :
  buildLinePolygonMap result s = Normal (tt, s') ->
  rawBuildLinePolygonMap (rawResultOf result) (rawLocalsOf s) = Normal (tt, rawLocalsOf s').
Proof.
  unfold buildLinePolygonMap, rawBuildLinePolygonMap, rawResultOf. cbn [raw_pages].
  destruct (pages result) as [pgs|]; cbn [option_map truthy].
  - unfold bind at 1, rawbind at 1. cbn [member rawmember ret rawret].
    unfold forEach, rawForEach. apply forEachFrom_of.
    intros pg i s0 s1. unfold rawPageOf. cbn [rawpage_lines].
    destruct (page_lines pg) as [ls|]; cbn [option_map truthy].
    + unfold bind at 1, rawbind at 1. cbn [member rawmember ret rawret].
      unfold forEach, rawForEach.
      apply (forEachFrom_of rawLineOf (indexLine pg)
               (rawIndexLine {| rawpage_pageNumber := page_pageNumber pg;
                                rawpage_lines := Some (map rawLineOf ls) |})).
      intros line j s2 s3. rewrite indexLine_run. intros E. injection E as <-.
      apply (rawIndexLine_of pg line j s2).
    + unfold ret, rawret. intros E. now injection E as <-.
  - unfold ret, rawret. intros E. now injection E as <-.
Qed.

Lemma rawParagraphPath_of (result : AnalyzeResult) (s s' : Locals) :
  paragraphPath result s = Normal (tt, s') ->
  rawParagraphPath (rawResultOf result) (rawLocalsOf s) = Normal (tt, rawLocalsOf s').
Proof.
  unfold paragraphPath, rawParagraphPath, rawResultOf. cbn [raw_paragraphs].
  destruct (paragraphs result) as [ps|]; cbn [option_map truthy].
  - unfold bind at 1, rawbind at 1. cbn [member rawmember ret rawret].
    unfold forEach, rawForEach. apply forEachFrom_of.
    intros par i s0 s1. rewrite paragraphCallback_run. intros E. injection E as <-.
    apply rawParagraphCallback_of.
  - unfold ret, rawret. intros E. now injection E as <-.
Qed.

Lemma rawLinePath_of (result : AnalyzeResult) (s s' : Locals) :
  linePath result s = Normal (tt, s') ->
  rawLinePath (rawResultOf result) (rawLocalsOf s) = Normal (tt, rawLocalsOf s').
Proof.
  unfold linePath, rawLinePath, rawResultOf. cbn [raw_pages].
  unfold bind at 1, rawbind at 1. cbn [get rawget].
  unfold rawLocalsOf at 1. cbn [raw_itemsVar]. rewrite length_map.
  destruct (pages result) as [pgs|]; cbn [option_map truthy].
  - destruct (length (items s) =? 0)%nat; cbn [andb].
    + unfold bind at 1, rawbind at 1. cbn [member rawmember ret rawret].
      unfold forEach, rawForEach. apply forEachFrom_of.
      intros pg i s0 s1. unfold rawPageOf. cbn [rawpage_lines].
      destruct (page_lines pg) as [ls|]; cbn [option_map truthy].
      * unfold bind at 1, rawbind at 1. cbn [member rawmember ret rawret].
        unfold forEach, rawForEach.
        apply (forEachFrom_of rawLineOf (lineCallback pg i)
                 (rawLineCallback {| rawpage_pageNumber := page_pageNumber pg;
                                     rawpage_lines := Some (map rawLineOf ls) |} i)).
        intros line j s2 s3. rewrite lineCallback_run. intros E. injection E as <-.
        apply (rawLineCallback_of pg i line j s2).
      * unfold ret, rawret. intros E. now injection E as <-.
    + unfold ret, rawret. intros E. now injection E as <-.
  - rewrite andb_false_r. unfold ret, rawret. intros E. now injection E as <-.
Qed.

(** On a checked result the raw extraction returns what the checked
    extraction returns. *)
Lemma rawExtractStructuredContent_of (result : AnalyzeResult) (out : StructuredContent) :
  extractStructuredContent result = Normal out ->
  rawExtractStructuredContent (rawResultOf result) = Normal (rawContentOf out).
Proof.
  unfold extractStructuredContent, rawExtractStructuredContent, body, rawBody.
  unfold bind at 1.
  destruct (buildLinePolygonMap result initialLocals) as [[[] s1]|e] eqn:E1;
    [|discriminate].
  unfold bind at 1.
  destruct (paragraphPath result s1) as [[[] s2]|e] eqn:E2; [|discriminate].
  unfold bind at 1.
  destruct (linePath result s2) as [[[] s3]|e] eqn:E3; [|discriminate].
  unfold bind, get, ret. intros E. injection E as <-.
  change rawInitialLocals with (rawLocalsOf initialLocals).
  unfold rawbind at 1. rewrite (rawBuildLinePolygonMap_of _ _ E1).
  unfold rawbind at 1. rewrite (rawParagraphPath_of _ _ E2).
  unfold rawbind at 1. rewrite (rawLinePath_of _ _ E3).
  unfold rawbind, rawget, rawret, rawContentOf, rawLocalsOf, pageCountOf, rawResultOf.
  cbn [raw_itemsVar raw_fullTextVar raw_pages sc_items sc_fullText sc_pageCount].
  destruct (pages result) as [pgs|]; cbn [option_map]; [|reflexivity].
  now rewrite length_map.
Qed.

End Server.

(** ** The properties at sample documents, with integer coordinates *)

(** C1 fails as stated. Line [Hello] of page 1 is in the index and
    [findLinePolygon] finds it for the paragraph's content and page, the
    paragraph's own region has no polygon, and yet the item's [boundingBox]
    is empty. *)
Lemma index_not_consulted_for_boundingBox :
  exists s entry out item,
    localsAfterBuild (sampleBareParagraph 10 20) = Normal s
    /\ findLinePolygon "Hello" 1 s = Normal (Some entry, s)
    /\ lp_polygon entry = [10; 10; 20; 10; 20; 20; 10; 20]
    /\ extractStructuredContent JsString.natToString (sampleBareParagraph 10 20) = Normal out
    /\ sc_items out = [item]
    /\ content item = "Hello"
    /\ page item = 1
    /\ boundingBox item = []
    /\ boundingBox item <> lp_polygon entry.
Proof.
  do 4 eexists.
  split; [vm_compute; reflexivity|].
  split; [vm_compute; reflexivity|].
  split; [reflexivity|].
  split; [vm_compute; reflexivity|].
  repeat split. discriminate.
Qed.

(** The bare paragraph of the sample gets an empty [boundingBox]. *)
Lemma paragraph_boundingBox_from_own_region_witness :
  exists out item,
    extractStructuredContent JsString.natToString (sampleBareParagraph 10 20) = Normal out
    /\ nth_error (sc_items out) 0 = Some item
    /\ boundingBox item = []
    /\ (@flattenPolygon nat Missing = None -> boundingBox item = []).
Proof.
  exact (@paragraph_boundingBox_from_own_region nat JsString.natToString
           (sampleBareParagraph 10 20) _ 0 _ eq_refl eq_refl).
Defined.

(** Two paragraphs give the items [item-0] and [item-1]. *)
Lemma paragraph_path_one_item_per_paragraph_witness :
  exists out,
    extractStructuredContent JsString.natToString (sampleNoGeometry 3 4) = Normal out
    /\ length (sc_items out) = 2
    /\ (forall i par,
          nth_error [headingWithoutRegions; paragraphWithShortPolygon 3 4] i = Some par ->
          exists item,
            nth_error (sc_items out) i = Some item
            /\ content item = par_content par
            /\ id item = "item-" ++ JsString.natToString i)
    /\ NoDup (map id (sc_items out)).
Proof.
  apply (@paragraph_path_one_item_per_paragraph nat JsString.natToString (sampleNoGeometry 3 4)
           [headingWithoutRegions; paragraphWithShortPolygon 3 4]).
  - reflexivity.
  - discriminate.
Defined.

(** C3 fails as stated. In the fallback over the lines the text is
    [SECTION 1\nText body here.\n]: a single newline follows each line, so
    it is neither the contents joined by a blank line nor the contents each
    followed by one. *)
Lemma fullText_of_lines_has_no_blank_line :
  exists out,
    extractStructuredContent JsString.natToString (sampleLinesOnly 10 20) = Normal out
    /\ map content (sc_items out) = ["SECTION 1"; "Text body here."]
    /\ sc_fullText out = "SECTION 1" ++ nl ++ "Text body here." ++ nl
    /\ sc_fullText out <> JsString.join (nl ++ nl) (map content (sc_items out))
    /\ sc_fullText out <> concatAll (map (fun it => content it ++ nl ++ nl) (sc_items out)).
Proof.
  eexists.
  split; [vm_compute; reflexivity|].
  split; [reflexivity|].
  split; [reflexivity|].
  split; vm_compute; discriminate.
Qed.

(** Two lines [Confidential] on page 1: the index keeps the first polygon. *)
Lemma index_keeps_first_seen_witness :
  exists s,
    localsAfterBuild (sampleTwoConfidential 1 2 5 6) = Normal s
    /\ map_get (mapKey 1 "Confidential") (linePolygonMap s)
       = Some {| lp_page := 1; lp_polygon := [1; 1; 2; 1; 2; 2; 1; 2] |}.
Proof.
  destruct (index_keeps_first_seen (sampleTwoConfidential 1 2 5 6))
    as (s & Hrun & _ & Hfirst).
  exists s. split; [exact Hrun|].
  apply (Hfirst [] (confidentialPage 1 2 5 6) (firstConfidential 1 2)
                [(confidentialPage 1 2 5 6, secondConfidential 5 6)]).
  - reflexivity.
  - reflexivity.
  - simpl. lia.
  - intros pg0 l0 [].
Defined.

(** C5 fails as stated. The numbered clause of the example has 141
    characters, so it passes the length gate, matches the leading ordinal,
    and role [paragraph] or not, its item is a heading. *)
Lemma commencement_clause_is_heading :
  String.length commencementClause = 141
  /\ exists out item,
      extractStructuredContent JsString.natToString (sampleClause commencementClause) = Normal out
      /\ sc_items out = [item]
      /\ content item = commencementClause
      /\ type item = heading
      /\ type item <> paragraph.
Proof.
  split; [reflexivity|].
  do 2 eexists.
  split; [vm_compute; reflexivity|].
  repeat split. discriminate.
Qed.

(** The same clause, extended to 163 characters, is a paragraph. *)
Lemma long_content_is_paragraph_witness :
  exists out item,
    extractStructuredContent JsString.natToString
      (sampleClause (commencementClause ++ " Renewal is automatic.")) = Normal out
    /\ nth_error (sc_items out) 0 = Some item
    /\ type item = paragraph.
Proof.
  apply (@long_content_is_paragraph nat JsString.natToString
           (sampleClause (commencementClause ++ " Renewal is automatic."))
           _ 0 _ eq_refl eq_refl).
  - discriminate.
  - discriminate.
  - discriminate.
  - apply Nat.leb_le. vm_compute. reflexivity.
Defined.

(** C6. The prefix scan compares the content with the stored text cut at
    its first colon. With line [Total: 5] indexed on page 1, the lookup of
    [Totally different] on page 1 returns that line's entry, although the
    stored line text is no prefix of the content and no rule of the
    resolution order matches. *)
Theorem prefix_scan_cuts_text_at_colon :
  exists s entry,
    localsAfterBuild (sampleTotalLine 10 20) = Normal s
    /\ map fst (linePolygonMap s) = [mapKey 1 "Total: 5"]
    /\ findLinePolygon "Totally different" 1 s = Normal (Some entry, s)
    /\ map_get (mapKey 1 "Total: 5") (linePolygonMap s) = Some entry
    /\ keyText (mapKey 1 "Total: 5") = "Total"
    /\ JsString.startsWith (JsString.trim "Totally different") "Total: 5" = false
    /\ specLookup (linePolygonMap s) "Totally different" 1 = None.
Proof.
  do 2 eexists.
  split; [vm_compute; reflexivity|].
  repeat split; vm_compute; reflexivity.
Qed.

(** The two lines of the sample page, through the general statement. *)
Lemma line_fallback_per_line_witness :
  exists out,
    extractStructuredContent JsString.natToString (sampleLinesOnly 10 20) = Normal out
    /\ length (sc_items out) = 2
    /\ map content (sc_items out) = ["SECTION 1"; "Text body here."]
    /\ map type (sc_items out) = [heading; paragraph]
    /\ sc_fullText out = "SECTION 1" ++ nl ++ "Text body here." ++ nl.
Proof.
  destruct (proj1 (@line_fallback_per_line nat JsString.natToString) (sampleLinesOnly 10 20) _
                  (or_introl eq_refl) eq_refl)
    as (out & Hrun & Hlen & Hcontent & Htype & Htext).
  exists out. repeat split; assumption.
Defined.

(** The heading without regions lands on page 1 without geometry. *)
Lemma empty_boundingRegions_defaults_witness :
  exists out item,
    extractStructuredContent JsString.natToString (sampleNoGeometry 3 4) = Normal out
    /\ nth_error (sc_items out) 0 = Some item
    /\ page item = 1
    /\ boundingBox item = []
    /\ source item = None.
Proof.
  exact (@empty_boundingRegions_defaults nat JsString.natToString (sampleNoGeometry 3 4)
           _ 0 _ eq_refl eq_refl eq_refl).
Defined.

(** A single region with a two-point polygon gives the empty string. *)
Lemma source_null_versus_empty_witness :
  exists out item,
    extractStructuredContent JsString.natToString (sampleNoGeometry 3 4) = Normal out
    /\ nth_error (sc_items out) 1 = Some item
    /\ source item = Some EmptyString.
Proof.
  destruct (@source_null_versus_empty nat JsString.natToString (sampleNoGeometry 3 4) _ 1 _
              eq_refl eq_refl)
    as (out & item & Hrun & Hitem & _ & Hempty).
  exists out, item. repeat split; try assumption.
  apply Hempty. eexists. split; [reflexivity|]. split; [discriminate|].
  repeat constructor; simpl; lia.
Defined.

(** ** The further properties at sample documents and requests *)

Arguments Rejected {A} message.

(** Four corner points flatten to their eight coordinates. *)
Lemma flattenPolygon_points_witness :
  exists p,
    flattenPolygon (box 1 2) = Some p
    /\ length p = 8
    /\ nth_error p 2 = Some 2 /\ nth_error p 3 = Some 1.
Proof.
  destruct (proj2 (flattenPolygon_points
                     [ {| x := 1; y := 1 |}; {| x := 2; y := 1 |};
                       {| x := 2; y := 2 |}; {| x := 1; y := 2 |} ]))
    as (p & Hflat & Hlen & Hnth); [discriminate|].
  exists p. split; [exact Hflat|]. split; [exact Hlen|].
  exact (Hnth 1 {| x := 2; y := 1 |} eq_refl).
Defined.

(** The flattened corners flatten to themselves. *)
Lemma flattenPolygon_idempotent_witness :
  [1; 1; 2; 1; 2; 2; 1; 2] <> []
  /\ flattenPolygon (Numbers [1; 1; 2; 1; 2; 2; 1; 2]) = Some [1; 1; 2; 1; 2; 2; 1; 2].
Proof.
  exact (@flattenPolygon_idempotent nat (box 1 2) [1; 1; 2; 1; 2; 2; 1; 2] eq_refl).
Defined.

(** Looking up [Hello] on page 1 of the sample gives geometry of page 1. *)
Lemma lookup_returns_geometry_of_the_page_witness :
  exists s r,
    localsAfterBuild (sampleBareParagraph 10 20) = Normal s
    /\ findLinePolygon "Hello" 1 s = Normal (r, s)
    /\ (forall v, r = Some v -> lp_page v = 1 /\ 8 <= length (lp_polygon v)).
Proof.
  destruct (lookup_returns_geometry_of_the_page (sampleBareParagraph 10 20) "Hello" 1)
    as (s & r & Hbuild & Hfind & Hr).
  exists s, r. split; [exact Hbuild|]. split; [exact Hfind|].
  intros v Hv. destruct (Hr v Hv) as (Hpage & Hlen & _). now split.
Defined.

(** A content that starts with the text of the second [Confidential]
    line, after other white space, is found on page 1. *)
Lemma indexed_line_is_found_witness :
  exists s v,
    localsAfterBuild (sampleTwoConfidential 1 2 5 6) = Normal s
    /\ findLinePolygon "   Confidential information" 1 s = Normal (Some v, s)
    /\ lp_page v = 1
    /\ 8 <= length (lp_polygon v).
Proof.
  apply (@indexed_line_is_found nat (sampleTwoConfidential 1 2 5 6)
           (confidentialPage 1 2 5 6) (secondConfidential 5 6)
           [5; 5; 6; 5; 6; 6; 5; 6] "   Confidential information").
  - right. now left.
  - reflexivity.
  - simpl. lia.
  - reflexivity.
Defined.

(** Nothing is found on page 2 of a document whose lines are on page 1. *)
Lemma lookup_on_page_without_lines_witness :
  exists s,
    localsAfterBuild (sampleTwoConfidential 1 2 5 6) = Normal s
    /\ findLinePolygon "Confidential" 2 s = Normal (None, s).
Proof.
  apply (@lookup_on_page_without_lines nat (sampleTwoConfidential 1 2 5 6)).
  intros pg line [E | [E | []]]; injection E as <- _; discriminate.
Defined.

(** The same paragraph with and without pages. *)
Lemma paragraph_path_ignores_pages_witness :
  exists out1 out2,
    extractStructuredContent JsString.natToString (sampleBareParagraph 10 20) = Normal out1
    /\ extractStructuredContent JsString.natToString
         {| pages := None; paragraphs := paragraphs (sampleBareParagraph 10 20) |}
       = Normal out2
    /\ sc_items out1 = sc_items out2
    /\ sc_fullText out1 = sc_fullText out2.
Proof.
  exact (@paragraph_path_ignores_pages nat JsString.natToString
           (sampleBareParagraph 10 20)
           {| pages := None; paragraphs := paragraphs (sampleBareParagraph 10 20) |}
           _ _ eq_refl eq_refl).
Defined.

(** Both paragraphs without geometry are on a positive page. *)
Lemma paragraph_items_on_positive_pages_witness :
  exists out,
    extractStructuredContent JsString.natToString (sampleNoGeometry 3 4) = Normal out
    /\ Forall (fun it => 1 <= page it) (sc_items out).
Proof.
  apply (@paragraph_items_on_positive_pages nat JsString.natToString
           (sampleNoGeometry 3 4)
           [headingWithoutRegions; paragraphWithShortPolygon 3 4]).
  - reflexivity.
  - discriminate.
Defined.

(** Of three regions the first and the third have a box: the [source]
    lists these two, in their order. *)
Lemma paragraph_source_lists_usable_regions_witness :
  exists out item,
    extractStructuredContent JsString.natToString (sampleAcrossPages 1 2 5 6) = Normal out
    /\ nth_error (sc_items out) 0 = Some item
    /\ source item = Some "D(1,1,1,2,1,2,2,1,2);D(2,5,5,6,5,6,6,5,6)".
Proof.
  destruct (@paragraph_source_lists_usable_regions nat JsString.natToString
              (sampleAcrossPages 1 2 5 6) _ 0 (paragraphAcrossPages 1 2 5 6) _
              eq_refl eq_refl eq_refl)
    as (out & item & Hrun & Hitem & Hsource); [discriminate|].
  exists out, item. split; [exact Hrun|]. split; [exact Hitem|].
  rewrite Hsource. reflexivity.
Defined.

(** The two lines of the sample page: one with a box, one without. *)
Lemma line_items_source_matches_boundingBox_witness :
  exists out,
    extractStructuredContent JsString.natToString (sampleLinesOnly 10 20) = Normal out
    /\ Forall (fun it => source it =
                         if (8 <=? length (boundingBox it))%nat
                         then Some (sourceString JsString.natToString (page it)
                                                 (boundingBox it))
                         else None)
              (sc_items out).
Proof.
  exact (@line_items_source_matches_boundingBox nat JsString.natToString
           (sampleLinesOnly 10 20) _ (or_introl eq_refl) eq_refl).
Defined.

(** The two lines of the sample page have distinct ids. *)
Lemma line_path_ids_unique_witness :
  exists out,
    extractStructuredContent JsString.natToString (sampleLinesOnly 10 20) = Normal out
    /\ NoDup (map id (sc_items out)).
Proof.
  destruct (@line_path_ids_unique nat JsString.natToString
              (sampleLinesOnly 10 20) _ (or_introl eq_refl) eq_refl)
    as (out & Hrun & Hids & _).
  now exists out.
Defined.

(** The heading of role [sectionHeading]. *)
Lemma heading_role_overrides_shape_witness :
  exists out item,
    extractStructuredContent JsString.natToString (sampleNoGeometry 3 4) = Normal out
    /\ nth_error (sc_items out) 0 = Some item
    /\ type item = heading.
Proof.
  apply (@heading_role_overrides_shape nat JsString.natToString
           (sampleNoGeometry 3 4) _ 0 headingWithoutRegions eq_refl eq_refl).
  right. now left.
Defined.

(** Two analyses, then a question and a rejected analysis: the context is
    the text of the second analysis. *)
Lemma context_is_text_of_last_analysis_witness :
  exists out,
    extractStructuredContent JsString.natToString (sampleNoGeometry 3 4) = Normal out
    /\ snd (serve JsString.natToString
              ([ PostAnalyze (Some sampleUpload) (Resolved (sampleLinesOnly 10 20)) ]
                 ++ PostAnalyze (Some sampleUpload) (Resolved (sampleNoGeometry 3 4))
                 :: [ PostQuery (Some (Some "What is the term?")) sampleService;
                      PostAnalyze (Some sampleUpload) (Rejected "timeout") ])%list
              startupContext)
       = sc_fullText out.
Proof.
  apply (proj1 (@context_is_text_of_last_analysis nat JsString.natToString)).
  repeat constructor.
Defined.

(** A question, a request without file and a rejected analysis. *)
Lemma no_answer_before_an_analysis_witness :
  Forall (fun res => status res <> 200)
         (fst (serve JsString.natToString
                 [ PostQuery (Some (Some "What is the term?")) sampleService;
                   PostAnalyze None (Rejected "unused");
                   PostAnalyze (Some sampleUpload) (@Rejected (@AnalyzeResult nat) "timeout") ]
                 startupContext)).
Proof.
  apply (@no_answer_before_an_analysis nat JsString.natToString).
  repeat constructor.
Defined.

(** A question after the analysis of a result without pages or paragraphs,
    and after the analysis of the sample page. *)
Lemma question_after_analysis_witness :
  @queryHandler nat (Some (Some "What is the term?")) sampleService
               (snd (analyzeHandler JsString.natToString (Some sampleUpload)
                                    (Resolved (@emptyResult nat)) startupContext))
  = {| status := 400;
       json := ErrorJson "No document analyzed yet. Please upload a document first." None |}
  /\ @queryHandler nat (Some (Some "What is the term?")) sampleService
                  (snd (analyzeHandler JsString.natToString (Some sampleUpload)
                                       (Resolved (sampleLinesOnly 10 20)) startupContext))
     = {| status := 200; json := AnswerJson "Five years." |}.
Proof.
  split.
  - destruct (@question_after_analysis nat JsString.natToString sampleUpload
                (@emptyResult nat) startupContext "What is the term?" sampleService)
      as (out & Hrun & Hnone & _); [discriminate|].
    apply Hnone. vm_compute in Hrun. injection Hrun as <-. reflexivity.
  - destruct (@question_after_analysis nat JsString.natToString sampleUpload
                (sampleLinesOnly 10 20) startupContext "What is the term?" sampleService)
      as (out & Hrun & _ & Hsome); [discriminate|].
    apply (Hsome) with (others := []).
    + vm_compute in Hrun. injection Hrun as <-. discriminate.
    + reflexivity.
Defined.

(** The lines [Confidential] hold no colon: what the lookup of a longer
    content returns belongs to a line whose text starts the content. *)
Lemma lookup_text_is_a_prefix_witness :
  exists s r,
    localsAfterBuild (sampleTwoConfidential 1 2 5 6) = Normal s
    /\ findLinePolygon "Confidential information" 1 s = Normal (r, s)
    /\ (forall v, r = Some v ->
         exists pg line,
           In (pg, line) (linesOf [confidentialPage 1 2 5 6])
           /\ page_pageNumber pg = 1
           /\ flattenPolygon (line_polygon line) = Some (lp_polygon v)
           /\ JsString.startsWith "Confidential information"
                                  (JsString.trim (line_content line)) = true).
Proof.
  apply (@lookup_text_is_a_prefix nat (sampleTwoConfidential 1 2 5 6)
           "Confidential information" 1).
  intros pg line [E | [E | []]] _; injection E as _ <-; reflexivity.
Defined.

(** C8 fails as stated. A line whose polygon array starts with a point
    and holds null after it makes the extraction throw, at the [flatMap] of
    line 158; so does a paragraph whose [boundingRegions] holds null, at
    line 244. *)
Lemma extraction_throws_on_null_in_polygon :
  flattens (RawArray [rawPoint 1 2; JsNull]) = false
  /\ rawFlattenPolygon (RawArray [rawPoint 1 2; JsNull]) = Throw TypeError
  /\ rawExtractStructuredContent JsString.natToString (sampleNullInPolygon 1 2)
     = Throw TypeError
  /\ rawExtractStructuredContent JsString.natToString (@sampleNullRegion nat)
     = Throw TypeError.
Proof. repeat split; vm_compute; reflexivity. Qed.

(** The ragged sample throws nothing: two pages, two items. *)
Lemma raw_extraction_throws_only_on_malformed_witness :
  exists out,
    rawExtractStructuredContent JsString.natToString (sampleRagged 1 2) = Normal out
    /\ rawsc_pageCount out = 2.
Proof.
  apply (proj1 (@raw_extraction_throws_only_on_malformed nat JsString.natToString
                  (sampleRagged 1 2))).
  reflexivity.
Defined.
